(** * Diagram quality analyzer (skills/excalidraw/scripts/analyzer.py)

    A shallow embedding of the [VisualAnalyzer] class and the properties of
    its scoring pipeline.

    Modelling choices.
    - A diagram element is a Python dict read through [e.get(key)]; it is a
      record whose fields are options, [None] standing for an absent key.
    - Python numbers (the geometry, font sizes, gap distances, the
      coefficient of variation) are real numbers, and [math.sqrt] is [sqrt].
      The rounding of float arithmetic is not modelled, so a result of the
      model is the result of the code up to rounding; neither are the
      infinities and NaN that [+], [-], [*] and [/] give out of range,
      without raising.  What float arithmetic raises is modelled: [x ** 2]
      raises [OverflowError] when the square is out of the range of floats
      ([float_pow]).  The properties that say that the statistics return a
      value are stated on values of magnitude up to [10^150], where no
      intermediate result leaves that range.  Integers that Python keeps as
      [int] (scores, counts, lengths) are in [Z].
    - The analyzer instance is an explicit state (issues, warnings, score)
      threaded through the methods; a method that can raise returns an
      outcome.
    - [f"{variance:.1%}"] is the Python runtime's number formatting; it is
      a parameter of the development. *)

From Stdlib Require Import Reals Lra Lia ZArith List String Ascii Bool.
From Stdlib Require Import DecimalString.
Import ListNotations.

Set Implicit Arguments.

(** ** Comparisons on numbers, as booleans *)

Module Num.

Definition ltb (a b : R) : bool := if Rlt_dec a b then true else false.
Definition leb (a b : R) : bool := if Rle_dec a b then true else false.
Definition gtb (a b : R) : bool := ltb b a.
Definition eqb (a b : R) : bool := if Req_dec_T a b then true else false.

End Num.

Declare Scope num_scope.
Delimit Scope num_scope with num.
Infix "<?" := Num.ltb (at level 70, no associativity) : num_scope.
Infix "<=?" := Num.leb (at level 70, no associativity) : num_scope.
Infix ">?" := Num.gtb (at level 70, no associativity) : num_scope.
Infix "=?" := Num.eqb (at level 70, no associativity) : num_scope.

(** ** Python helpers *)

(** [d.get(key, default)] on a field that may be absent. *)
Definition get {A} (field : option A) (default : A) : A :=
  match field with Some v => v | None => default end.

(** Truthiness of an optional object ([not d.get(key)] is its negation). *)
Definition truthy {A} (field : option A) : bool :=
  match field with Some _ => true | None => false end.

(** [str.lower] on ASCII text. *)
Definition lower_ascii (c : ascii) : ascii :=
  let n := nat_of_ascii c in
  if ((65 <=? n) && (n <=? 90))%nat then ascii_of_nat (n + 32) else c.

Fixpoint lower (s : string) : string :=
  match s with
  | EmptyString => EmptyString
  | String c r => String (lower_ascii c) (lower r)
  end.

(** [needle in hay] on strings. *)
Fixpoint contains (needle hay : string) : bool :=
  if prefix needle hay then true
  else match hay with
       | EmptyString => false
       | String _ r => contains needle r
       end.

(** [any(p(x) for x in l)]. *)
Definition any {A} (p : A -> bool) (l : list A) : bool := existsb p l.

(** The pairs visited by
    [for i, a in enumerate(l): for b in l[i+1:]], in visiting order. *)
Fixpoint pairs {A} (l : list A) : list (A * A) :=
  match l with
  | [] => []
  | a :: t => map (pair a) t ++ pairs t
  end.

(** [sum(values)], [max(values)] and [min(values)] on numbers. *)
Definition sum (values : list R) : R := fold_left Rplus values 0%R.

Definition max_list (values : list R) : R :=
  match values with
  | [] => 0%R
  | v :: t => fold_left (fun m a => if Num.ltb m a then a else m) t v
  end.

Definition min_list (values : list R) : R :=
  match values with
  | [] => 0%R
  | v :: t => fold_left (fun m a => if Num.ltb a m then a else m) t v
  end.

(** ** Data model *)

(** A binding object of an arrow: it carries the id of the bound element. *)
Record binding := { elementId : string }.

Record element := {
  e_id : option string;
  e_type : option string;
  e_x : option R;
  e_y : option R;
  e_width : option R;
  e_height : option R;
  e_fontSize : option R;
  e_startBinding : option binding;
  e_endBinding : option binding
}.

(** The scene metadata: a dict that may or may not have the key [elements]. *)
Record metadata := { md_elements : option (list element) }.

(** The report dict.  The keys [element_count] and [quality_level] are not in
    every report the analyzer builds, so they are optional. *)
Record report := {
  r_score : Z;
  r_grade : string;
  r_issues : list string;
  r_warnings : list string;
  r_suggestions : list string;
  r_element_count : option Z;
  r_quality_level : option string
}.

Inductive direction := horizontal | vertical.

Record gap := { gap_direction : direction; gap_distance : R }.

Inductive exn := TypeError | OverflowError.

Inductive outcome (A : Type) :=
| Return (a : A)
| Raise (e : exn).
Arguments Raise {A} e.

(** ** The analyzer instance and its methods *)

Module VisualAnalyzer.

Local Open Scope string_scope.
Local Open Scope list_scope.
Local Open Scope R_scope.
Local Open Scope num_scope.

(** The instance attributes set by [__init__]. *)
Record analyzer := {
  issues : list string;
  warnings : list string;
  score : Z
}.

(** A method: it reads and updates [self], and returns or raises. *)
Definition M (A : Type) : Type := analyzer -> outcome A * analyzer.

Definition ret {A} (a : A) : M A := fun self => (Return a, self).

Definition bind {A B} (m : M A) (k : A -> M B) : M B :=
  fun self =>
    match m self with
    | (Return a, self') => k a self'
    | (Raise e, self') => (Raise e, self')
    end.

Notation "x <- m ;; k" := (bind m (fun x => k))
  (at level 61, m at next level, right associativity).
Notation "m ;; k" := (bind m (fun _ => k))
  (at level 61, right associativity).

(** [self.issues.append(s)] and [self.warnings.append(s)]. *)
Definition append_issue (s : string) : M unit :=
  fun self =>
    (Return tt, {| issues := issues self ++ [s];
                   warnings := warnings self;
                   score := score self |}).

Definition append_warning (s : string) : M unit :=
  fun self =>
    (Return tt, {| issues := issues self;
                   warnings := warnings self ++ [s];
                   score := score self |}).

(** A list comprehension whose body may raise. *)
Fixpoint comprehension {A B} (f : A -> outcome B) (l : list A) : outcome (list B) :=
  match l with
  | [] => Return []
  | a :: t =>
      match f a with
      | Raise e => Raise e
      | Return b =>
          match comprehension f t with
          | Raise e => Raise e
          | Return bs => Return (b :: bs)
          end
      end
  end.

Definition lift {A} (o : outcome A) : M A := fun self => (o, self).

(** Arithmetic on a value that is [None] raises [TypeError]. *)
Definition number (v : option R) : outcome R :=
  match v with
  | Some r => Return r
  | None => Raise TypeError
  end.

(** The range of floats: a result is finite when its exact value lies below
    [2^1024 - 2^970], half a unit in the last place above the largest float,
    and rounds to infinity from there on.  [x ** n] raises [OverflowError]
    instead of returning an infinity. *)
Definition FLOAT_RANGE : R := IZR (2 ^ 1024 - 2 ^ 970)%Z.

Definition float_pow (x : R) (n : nat) : outcome R :=
  if Rabs (x ^ n) <? FLOAT_RANGE then Return (x ^ n) else Raise OverflowError.

(** Quality thresholds *)
Definition MIN_TEXT_SIZE : Z := 12.
Definition MIN_SPACING : Z := 20.
Definition MAX_SPACING_VARIANCE : R := 0.3.
Definition MIN_ALIGNMENT_THRESHOLD : Z := 5.

(** [str(z)] for an integer, as an f-string renders it. *)
Definition str_int (z : Z) : string := NilZero.string_of_int (Z.to_int z).

Definition len {A} (l : list A) : Z := Z.of_nat (List.length l).

Definition __init__ : analyzer :=
  {| issues := []; warnings := []; score := 100 |}.

(** *** Geometry *)

Definition _calculate_gap (e1 e2 : element) : option gap :=
  let x1 := get (e_x e1) 0 in
  let y1 := get (e_y e1) 0 in
  let w1 := get (e_width e1) 0 in
  let h1 := get (e_height e1) 0 in
  let x2 := get (e_x e2) 0 in
  let y2 := get (e_y e2) 0 in
  let w2 := get (e_width e2) 0 in
  let h2 := get (e_height e2) 0 in
  let horizontally :=
    if Rabs (y1 - y2) <? Rmin h1 h2 * 0.5 then
      if x1 + w1 <? x2 then
        Some {| gap_direction := horizontal; gap_distance := x2 - (x1 + w1) |}
      else if x2 + w2 <? x1 then
        Some {| gap_direction := horizontal; gap_distance := x1 - (x2 + w2) |}
      else None
    else None in
  match horizontally with
  | Some g => Some g
  | None =>
      if Rabs (x1 - x2) <? Rmin w1 w2 * 0.5 then
        if y1 + h1 <? y2 then
          Some {| gap_direction := vertical; gap_distance := y2 - (y1 + h1) |}
        else if y2 + h2 <? y1 then
          Some {| gap_direction := vertical; gap_distance := y1 - (y2 + h2) |}
        else None
      else None
  end.

Definition _elements_overlap (e1 e2 : element) : bool :=
  let x1 := get (e_x e1) 0 in
  let y1 := get (e_y e1) 0 in
  let w1 := get (e_width e1) 0 in
  let h1 := get (e_height e1) 0 in
  let x2 := get (e_x e2) 0 in
  let y2 := get (e_y e2) 0 in
  let w2 := get (e_width e2) 0 in
  let h2 := get (e_height e2) 0 in
  negb ((x1 + w1 <=? x2) || (x2 + w2 <=? x1) || (y1 + h1 <=? y2) || (y2 + h2 <=? y1)).

(** *** Statistics *)

(** The generator [(x - mean) ** 2 for x in values] raises as soon as one
    square is out of range, and so does the [sum] that consumes it. *)
Definition _calculate_variance (values : list R) : outcome R :=
  if (List.length values <? 2)%nat then Return 0
  else
    let mean := sum values / INR (List.length values) in
    if mean =? 0 then Return 0
    else
      match comprehension (fun x => float_pow (x - mean) 2) values with
      | Raise err => Raise err
      | Return squares =>
          let variance := sum squares / INR (List.length values) in
          let std := sqrt variance in
          Return (std / mean)
      end.

Definition _count_near_values (values : list R) (threshold : R) : Z :=
  if (List.length values <? 2)%nat then 0%Z
  else
    fold_left
      (fun near_count '(v1, v2) =>
         if Rabs (v1 - v2) <=? threshold then (near_count + 1)%Z else near_count)
      (pairs values) 0%Z.

(** *** Scoring *)

Definition _calculate_grade (score : Z) : string :=
  if (score >=? 90)%Z then "A"
  else if (score >=? 80)%Z then "B"
  else if (score >=? 70)%Z then "C"
  else if (score >=? 60)%Z then "D"
  else "F".

Definition _quality_level (score : Z) : string :=
  if (score >=? 90)%Z then "Excellent"
  else if (score >=? 80)%Z then "Good"
  else if (score >=? 70)%Z then "Fair"
  else if (score >=? 60)%Z then "Poor"
  else "Needs Improvement".

(** *** Element selection *)

Definition has_type (t : string) (e : element) : bool :=
  match e_type e with
  | Some s => String.eqb s t
  | None => false
  end.

(** [e.get('type') in ['rectangle', 'ellipse', 'diamond']] *)
Definition is_shape (e : element) : bool :=
  has_type "rectangle" e || has_type "ellipse" e || has_type "diamond" e.

Definition nonempty {A} (l : list A) : bool :=
  match l with [] => false | _ :: _ => true end.

(** *** The six checks *)

(** [text.get('fontSize', 20)], and the text elements whose font size is
    below [MIN_TEXT_SIZE] ([small_texts] of [_check_text_readability]). *)
Definition font_size (text : element) : R := get (e_fontSize text) 20.

Definition small_texts (elements : list element) : list element :=
  let texts := filter (has_type "text") elements in
  filter (fun text => font_size text <? IZR MIN_TEXT_SIZE) texts.

Definition _check_text_readability (elements : list element) : M unit :=
  let small_texts := map e_id (small_texts elements) in
  if nonempty small_texts then
    append_issue ("Small text detected: " ++ str_int (len small_texts)
                  ++ " elements with font size < " ++ str_int MIN_TEXT_SIZE
                  ++ "px")%string
  else ret tt.

(** The gaps found by the double loop of [_check_spacing_consistency], split
    by direction. *)
Definition gaps (shapes : list element) : list gap :=
  flat_map
    (fun '(shape1, shape2) =>
       match _calculate_gap shape1 shape2 with
       | Some gap => [gap]
       | None => []
       end)
    (pairs shapes).

Definition is_horizontal (g : gap) : bool :=
  match gap_direction g with horizontal => true | vertical => false end.

Definition h_gaps (shapes : list element) : list R :=
  map gap_distance (filter is_horizontal (gaps shapes)).

Definition v_gaps (shapes : list element) : list R :=
  map gap_distance (filter (fun g => negb (is_horizontal g)) (gaps shapes)).

(** The pairs of shapes appended to [overlaps] by [_check_overlaps]. *)
Definition overlaps (shapes : list element) : list (element * element) :=
  filter (fun '(shape1, shape2) => _elements_overlap shape1 shape2) (pairs shapes).

(** The arrows appended to [disconnected] by [_check_arrows]. *)
Definition disconnected (arrows : list element) : list element :=
  filter
    (fun arrow =>
       negb (truthy (e_startBinding arrow)) || negb (truthy (e_endBinding arrow)))
    arrows.

Section Checks.

(** [format(variance, '.1%')] *)
Variable format_percent : R -> string.

Definition _check_spacing_consistency (elements : list element) : M unit :=
  let shapes := filter is_shape elements in
  if (List.length shapes <? 2)%nat then ret tt
  else
    let h_gaps := h_gaps shapes in
    let v_gaps := v_gaps shapes in
    (if nonempty h_gaps then
       variance <- lift (_calculate_variance h_gaps) ;;
       if variance >? MAX_SPACING_VARIANCE then
         append_warning ("Inconsistent horizontal spacing (variance: "
                         ++ format_percent variance ++ ")")%string
       else ret tt
     else ret tt) ;;
    (if nonempty v_gaps then
       variance <- lift (_calculate_variance v_gaps) ;;
       if variance >? MAX_SPACING_VARIANCE then
         append_warning ("Inconsistent vertical spacing (variance: "
                         ++ format_percent variance ++ ")")%string
       else ret tt
     else ret tt).

(** [e.get('x')] and [e.get('y')] have no default here: for a shape without
    [x] (or [y]) the sum [e.get('x') + ...] of [centers_x] (or [centers_y])
    is [None + number], which raises.  When it does not raise, every entry
    of [left_edges] and [top_edges] is a number. *)
Definition _check_alignment (elements : list element) : M unit :=
  let shapes := filter is_shape elements in
  if (List.length shapes <? 2)%nat then ret tt
  else
    let left_edges := map e_x shapes in
    let top_edges := map e_y shapes in
    centers_x <- lift (comprehension
                         (fun e => match number (e_x e) with
                                   | Return x => Return (x + get (e_width e) 0 / 2)
                                   | Raise err => Raise err
                                   end) shapes) ;;
    centers_y <- lift (comprehension
                         (fun e => match number (e_y e) with
                                   | Return y => Return (y + get (e_height e) 0 / 2)
                                   | Raise err => Raise err
                                   end) shapes) ;;
    left_edges <- lift (comprehension number left_edges) ;;
    top_edges <- lift (comprehension number top_edges) ;;
    let aligned_count := 0%Z in
    let aligned_count :=
      (aligned_count + _count_near_values left_edges (IZR MIN_ALIGNMENT_THRESHOLD))%Z in
    let aligned_count :=
      (aligned_count + _count_near_values top_edges (IZR MIN_ALIGNMENT_THRESHOLD))%Z in
    let aligned_count :=
      (aligned_count + _count_near_values centers_x (IZR MIN_ALIGNMENT_THRESHOLD))%Z in
    let aligned_count :=
      (aligned_count + _count_near_values centers_y (IZR MIN_ALIGNMENT_THRESHOLD))%Z in
    if IZR aligned_count <? IZR (len shapes) * 0.3 then
      append_warning "Few aligned elements detected - consider using alignment tools"
    else ret tt.

Definition _check_overlaps (elements : list element) : M unit :=
  let shapes := filter is_shape elements in
  let overlaps := overlaps shapes in
  if nonempty overlaps then
    append_issue ("Overlapping elements detected: " ++ str_int (len overlaps)
                  ++ " pairs")%string
  else ret tt.

Definition _check_arrows (elements : list element) : M unit :=
  let arrows := filter (has_type "arrow") elements in
  if negb (nonempty arrows) then ret tt
  else
    let disconnected := disconnected arrows in
    if nonempty disconnected then
      append_issue ("Disconnected arrows: " ++ str_int (len disconnected)
                    ++ " arrows not properly connected")%string
    else ret tt.

Definition _check_visual_hierarchy (elements : list element) : M unit :=
  let shapes := filter is_shape elements in
  if (List.length shapes <? 2)%nat then ret tt
  else
    let sizes := map (fun e => get (e_width e) 0 * get (e_height e) 0) shapes in
    if nonempty sizes then
      let max_size := max_list sizes in
      let min_size := min_list sizes in
      if (max_size >? 0) && (min_size / max_size >? 0.95) then
        append_warning
          "All elements are similar size - consider using size for visual hierarchy"
      else ret tt
    else ret tt.

(** *** Suggestions *)

Definition _generate_suggestions : M (list string) :=
  fun self =>
    let suggestions := [] in
    let suggestions :=
      if any (fun issue => contains "Small text" issue) (issues self) then
        suggestions ++ ["Increase font size to at least 12px for better readability"]
      else suggestions in
    let suggestions :=
      if any (fun warning => contains "spacing" (lower warning)) (warnings self) then
        suggestions
          ++ ["Use consistent spacing (e.g., 50px, 100px, 150px) between elements"]
      else suggestions in
    let suggestions :=
      if any (fun warning => contains "aligned" (lower warning)) (warnings self) then
        suggestions
          ++ ["Align elements to create visual order (left/center/right or top/middle/bottom)"]
      else suggestions in
    let suggestions :=
      if any (fun issue => contains "Overlapping" issue) (issues self) then
        suggestions ++ ["Separate overlapping elements or increase spacing"]
      else suggestions in
    let suggestions :=
      if any (fun issue => contains "Disconnected arrows" issue) (issues self) then
        suggestions ++ ["Connect all arrows to shapes using bind-arrow command"]
      else suggestions in
    let suggestions :=
      if any (fun warning => contains "visual hierarchy" (lower warning)) (warnings self)
      then
        suggestions
          ++ ["Use different sizes for different importance levels (larger = more important)"]
      else suggestions in
    let suggestions :=
      if negb (nonempty suggestions) then
        suggestions ++ ["Diagram looks good! No major issues detected."]
      else suggestions in
    (Return suggestions, self).

(** *** The entry point *)

(** The report of the empty diagram. *)
Definition empty_report : report :=
  {| r_score := 0;
     r_grade := "F";
     r_issues := ["Empty diagram"];
     r_warnings := [];
     r_suggestions := ["Add elements to the diagram"];
     r_element_count := None;
     r_quality_level := None |}.

(** The checks, in the order [analyze] calls them. *)
Definition checks : list (list element -> M unit) :=
  [ _check_text_readability;
    _check_spacing_consistency;
    _check_alignment;
    _check_overlaps;
    _check_arrows;
    _check_visual_hierarchy ].

Fixpoint run_checks (cs : list (list element -> M unit)) (elements : list element)
  : M unit :=
  match cs with
  | [] => ret tt
  | c :: rest => c elements ;; run_checks rest elements
  end.

(** [analyze], with the sequence of checks it runs as a parameter. *)
Definition analyze_with (cs : list (list element -> M unit)) (metadata : metadata)
  : M report :=
  fun self =>
    let self := {| issues := []; warnings := []; score := 100 |} in
    let elements := get (md_elements metadata) [] in
    if negb (nonempty elements) then (Return empty_report, self)
    else
      (run_checks cs elements ;;
       (fun self =>
          let penalty := (len (issues self) * 10 + len (warnings self) * 5)%Z in
          let self := {| issues := issues self;
                         warnings := warnings self;
                         score := Z.max 0 (score self - penalty) |} in
          let grade := _calculate_grade (score self) in
          (suggestions <- _generate_suggestions ;;
           (fun self =>
              (Return {| r_score := score self;
                         r_grade := grade;
                         r_issues := issues self;
                         r_warnings := warnings self;
                         r_suggestions := suggestions;
                         r_element_count := Some (len elements);
                         r_quality_level := Some (_quality_level (score self)) |},
               self))) self)) self.

Definition analyze (metadata : metadata) : M report := analyze_with checks metadata.

End Checks.

(** ** Vocabulary of the specification *)

(** The geometry of an element, absent values being 0. *)
Definition geom_x (e : element) : R := get (e_x e) 0.
Definition geom_y (e : element) : R := get (e_y e) 0.
Definition geom_w (e : element) : R := get (e_width e) 0.
Definition geom_h (e : element) : R := get (e_height e) 0.





(** The boxes are disjoint on some axis, touching edges included. *)
Definition disjoint_boxes (e1 e2 : element) : Prop :=
  geom_x e1 + geom_w e1 <= geom_x e2 \/ geom_x e2 + geom_w e2 <= geom_x e1 \/
  geom_y e1 + geom_h e1 <= geom_y e2 \/ geom_y e2 + geom_h e2 <= geom_y e1.

(** [clamp(v, lo, hi)] on integers. *)
Definition clamp (v lo hi : Z) : Z := Z.max lo (Z.min v hi).

(** The mean of a list of numbers, and the coefficient of variation as the
    specification words it. *)
Definition mean (values : list R) : R := sum values / INR (List.length values).

Definition coefficient_of_variation (values : list R) : R :=
  sqrt (mean (map (fun x => (x - mean values) ^ 2) values)) / mean values.

(** A shape of the given type and geometry, with no other attribute. *)
Definition shape (t : string) (id : option string) (x y width height : R) : element :=
  {| e_id := id; e_type := Some t;
     e_x := Some x; e_y := Some y; e_width := Some width; e_height := Some height;
     e_fontSize := None; e_startBinding := None; e_endBinding := None |}.

Definition rectangle := shape "rectangle".

(** A text element of the given font size, with no other attribute. *)
Definition text_element (fontSize : option R) : element :=
  {| e_id := None; e_type := Some "text";
     e_x := None; e_y := None; e_width := None; e_height := None;
     e_fontSize := fontSize; e_startBinding := None; e_endBinding := None |}.

(** An arrow with the given bindings, and no other attribute. *)
Definition arrow (id : option string) (startBinding endBinding : option binding)
  : element :=
  {| e_id := id; e_type := Some "arrow";
     e_x := None; e_y := None; e_width := None; e_height := None;
     e_fontSize := None;
     e_startBinding := startBinding; e_endBinding := endBinding |}.

(** The report of the two overlapping rectangles. *)
Definition two_rectangles_report : report :=
  {| r_score := 80;
     r_grade := "B";
     r_issues := ["Overlapping elements detected: 1 pairs"];
     r_warnings :=
       ["Few aligned elements detected - consider using alignment tools";
        "All elements are similar size - consider using size for visual hierarchy"];
     r_suggestions :=
       ["Align elements to create visual order (left/center/right or top/middle/bottom)";
        "Separate overlapping elements or increase spacing";
        "Use different sizes for different importance levels (larger = more important)"];
     r_element_count := Some 2%Z;
     r_quality_level := Some "Good" |}.

(** The report of a lone arrow that has no [startBinding]. *)
Definition lone_arrow_report : report :=
  {| r_score := 90;
     r_grade := "A";
     r_issues := ["Disconnected arrows: 1 arrows not properly connected"];
     r_warnings := [];
     r_suggestions := ["Connect all arrows to shapes using bind-arrow command"];
     r_element_count := Some 1%Z;
     r_quality_level := Some "Excellent" |}.

(** A small text: a text element whose font size, 20 when absent, is strictly
    less than 12. *)
Definition small_text (e : element) : bool :=
  has_type "text" e && (get (e_fontSize e) 20 <? 12).


(** A method leaves [score] as it found it. *)
Definition keeps_score {A} (m : M A) : Prop :=
  forall self, score (snd (m self)) = score self.

(** A method returns, whatever the state of the instance. *)
Definition returns (m : M unit) : Prop :=
  forall self, exists self', m self = (Return tt, self').

(** The issue that each of the three issue-raising checks contributes. *)
Definition text_issues (elements : list element) : list string :=
  match small_texts elements with
  | [] => []
  | small =>
      [("Small text detected: " ++ str_int (len small)
        ++ " elements with font size < 12px")%string]
  end.

Definition overlap_issues (elements : list element) : list string :=
  match overlaps (filter is_shape elements) with
  | [] => []
  | found =>
      [("Overlapping elements detected: " ++ str_int (len found) ++ " pairs")%string]
  end.

Definition arrow_issues (elements : list element) : list string :=
  match disconnected (filter (has_type "arrow") elements) with
  | [] => []
  | found =>
      [("Disconnected arrows: " ++ str_int (len found)
        ++ " arrows not properly connected")%string]
  end.

(** Whenever the method returns, it has appended the issues [I] and at most
    [n] warnings, and has left [score] alone. *)
Definition adds {A} (m : M A) (I : list string) (n : nat) : Prop :=
  forall self a self',
    m self = (Return a, self') ->
    exists W,
      (List.length W <= n)%nat /\
      self' = {| issues := issues self ++ I;
                 warnings := warnings self ++ W;
                 score := score self |}.



(** Three unit squares in a row, at [0], [10^160] and [4 * 10^160]. *)
Definition far_row : list element :=
  [ rectangle None 0 0 1 1; rectangle None (10 ^ 160) 0 1 1;
    rectangle None (4 * 10 ^ 160) 0 1 1 ].


(** The number of near pairs that [_check_alignment] adds up over the left
    edges, the top edges and the two centre coordinates of the shapes. *)
Definition aligned_count (shapes : list element) : Z :=
  (0 + _count_near_values (map geom_x shapes) (IZR MIN_ALIGNMENT_THRESHOLD)
   + _count_near_values (map geom_y shapes) (IZR MIN_ALIGNMENT_THRESHOLD)
   + _count_near_values (map (fun e => (geom_x e + geom_w e / 2)%R) shapes)
       (IZR MIN_ALIGNMENT_THRESHOLD)
   + _count_near_values (map (fun e => (geom_y e + geom_h e / 2)%R) shapes)
       (IZR MIN_ALIGNMENT_THRESHOLD))%Z.

(** ** Comparisons of numbers *)

Lemma num_ltb_lt a b : Num.ltb a b = true <-> (a < b)%R.
Proof. unfold Num.ltb; destruct (Rlt_dec a b); split; auto; discriminate. Qed.

Lemma num_ltb_nlt a b : Num.ltb a b = false <-> ~ (a < b)%R.
Proof. unfold Num.ltb; destruct (Rlt_dec a b); split; auto; try discriminate; tauto. Qed.

Lemma num_leb_le a b : Num.leb a b = true <-> (a <= b)%R.
Proof. unfold Num.leb; destruct (Rle_dec a b); split; auto; discriminate. Qed.

Lemma num_leb_nle a b : Num.leb a b = false <-> ~ (a <= b)%R.
Proof. unfold Num.leb; destruct (Rle_dec a b); split; auto; try discriminate; tauto. Qed.

Lemma num_gtb_gt a b : Num.gtb a b = true <-> (a > b)%R.
Proof. unfold Num.gtb; rewrite num_ltb_lt; unfold Rgt; tauto. Qed.

Lemma num_gtb_ngt a b : Num.gtb a b = false <-> ~ (a > b)%R.
Proof. unfold Num.gtb; rewrite num_ltb_nlt; unfold Rgt; tauto. Qed.

Lemma num_eqb_eq a b : Num.eqb a b = true <-> a = b.
Proof. unfold Num.eqb; destruct (Req_dec_T a b); split; auto; discriminate. Qed.

Lemma num_eqb_neq a b : Num.eqb a b = false <-> a <> b.
Proof. unfold Num.eqb; destruct (Req_dec_T a b); split; auto; try discriminate; tauto. Qed.

(** ** Proof automation for comparisons of numbers *)

Ltac num_bool :=
  repeat match goal with
  | H : Num.ltb _ _ = true |- _ => apply num_ltb_lt in H
  | H : Num.ltb _ _ = false |- _ => apply num_ltb_nlt in H
  | H : Num.leb _ _ = true |- _ => apply num_leb_le in H
  | H : Num.leb _ _ = false |- _ => apply num_leb_nle in H
  | H : Num.gtb _ _ = true |- _ => apply num_gtb_gt in H
  | H : Num.gtb _ _ = false |- _ => apply num_gtb_ngt in H
  | H : Num.eqb _ _ = true |- _ => apply num_eqb_eq in H
  | H : Num.eqb _ _ = false |- _ => apply num_eqb_neq in H
  end.

Ltac num_cases :=
  repeat match goal with
  | |- context [Num.ltb ?a ?b] => destruct (Num.ltb a b) eqn:?
  | |- context [Num.leb ?a ?b] => destruct (Num.leb a b) eqn:?
  | |- context [Num.gtb ?a ?b] => destruct (Num.gtb a b) eqn:?
  | |- context [Num.eqb ?a ?b] => destruct (Num.eqb a b) eqn:?
  end; num_bool.

Ltac abs_min :=
  unfold Rabs, Rmin, Rmax in *;
  repeat match goal with
  | |- context [Rcase_abs ?a] => destruct (Rcase_abs a)
  | H : context [Rcase_abs ?a] |- _ => destruct (Rcase_abs a)
  | |- context [Rle_dec ?a ?b] => destruct (Rle_dec a b)
  | H : context [Rle_dec ?a ?b] |- _ => destruct (Rle_dec a b)
  end.

(** Decides a boolean comparison of closed numbers. *)
Ltac num_decide :=
  match goal with
  | |- Num.ltb _ _ = true => apply num_ltb_lt
  | |- Num.ltb _ _ = false => apply num_ltb_nlt
  | |- Num.leb _ _ = true => apply num_leb_le
  | |- Num.leb _ _ = false => apply num_leb_nle
  | |- Num.gtb _ _ = true => apply num_gtb_gt
  | |- Num.gtb _ _ = false => apply num_gtb_ngt
  | |- Num.eqb _ _ = true => apply num_eqb_eq
  | |- Num.eqb _ _ = false => apply num_eqb_neq
  end; abs_min; lra.

(** ** Geometry *)

Lemma elements_overlap_spec e1 e2 :
  _elements_overlap e1 e2 = true <-> ~ disjoint_boxes e1 e2.
Proof.
  unfold _elements_overlap, disjoint_boxes, geom_x, geom_y, geom_w, geom_h.
  rewrite negb_true_iff, !orb_false_iff, !num_leb_nle. tauto.
Qed.

(** C4: [_elements_overlap] is the negation of "disjoint on some axis" with
    non-strict comparisons, so two elements with [x1 + w1 = x2] do not
    overlap. *)
Theorem elements_overlap_formula :
  (forall e1 e2,
      _elements_overlap e1 e2 = true <->
      ~ (geom_x e1 + geom_w e1 <= geom_x e2 \/ geom_x e2 + geom_w e2 <= geom_x e1 \/
         geom_y e1 + geom_h e1 <= geom_y e2 \/ geom_y e2 + geom_h e2 <= geom_y e1)) /\
  (forall a b,
      geom_x a + geom_w a = geom_x b ->
      _elements_overlap a b = false /\ _elements_overlap b a = false).
Proof.
  split.
  - intros e1 e2. apply elements_overlap_spec.
  - intros a b Htouch.
    split; apply not_true_is_false; rewrite elements_overlap_spec;
      unfold disjoint_boxes; intros Hn; apply Hn; lra.
Qed.

Lemma elements_overlap_formula_witness :
  _elements_overlap (rectangle None 0 0 100 50) (rectangle None 100 0 100 50) = false.
Proof.
  apply (proj2 elements_overlap_formula
           (rectangle None 0 0 100 50) (rectangle None 100 0 100 50)).
  unfold geom_x, geom_w; simpl. lra.
Defined.



Lemma calculate_gap_unfold e1 e2 :
  _calculate_gap e1 e2 =
  match
    (if Rabs (geom_y e1 - geom_y e2) <? Rmin (geom_h e1) (geom_h e2) * 0.5 then
       if geom_x e1 + geom_w e1 <? geom_x e2 then
         Some {| gap_direction := horizontal;
                 gap_distance := geom_x e2 - (geom_x e1 + geom_w e1) |}
       else if geom_x e2 + geom_w e2 <? geom_x e1 then
         Some {| gap_direction := horizontal;
                 gap_distance := geom_x e1 - (geom_x e2 + geom_w e2) |}
       else None
     else None)
  with
  | Some g => Some g
  | None =>
      if Rabs (geom_x e1 - geom_x e2) <? Rmin (geom_w e1) (geom_w e2) * 0.5 then
        if geom_y e1 + geom_h e1 <? geom_y e2 then
          Some {| gap_direction := vertical;
                  gap_distance := geom_y e2 - (geom_y e1 + geom_h e1) |}
        else if geom_y e2 + geom_h e2 <? geom_y e1 then
          Some {| gap_direction := vertical;
                  gap_distance := geom_y e1 - (geom_y e2 + geom_h e2) |}
        else None
      else None
  end.
Proof. reflexivity. Qed.









(** ** Comprehensions *)

Lemma comprehension_map A B (f : A -> outcome B) (g : A -> B) l :
  (forall a, In a l -> f a = Return (g a)) ->
  comprehension f l = Return (map g l).
Proof.
  induction l as [|a t IH]; intros Hf; [reflexivity|].
  cbn [comprehension map]. rewrite (Hf a (or_introl eq_refl)), IH; [reflexivity|].
  intros b Hb. apply Hf. now right.
Qed.

(** ** The range of floats *)

(** The square of a number of magnitude up to [2 * 10^150] is in the range
    of floats; the square of [10^160] is not. *)
Lemma float_range_includes : (2 * 10 ^ 150) ^ 2 < FLOAT_RANGE.
Proof.
  unfold FLOAT_RANGE. rewrite pow_IZR, <- mult_IZR, pow_IZR.
  apply IZR_lt. vm_compute. reflexivity.
Qed.

Lemma float_range_excludes : FLOAT_RANGE <= (10 ^ 160) ^ 2.
Proof.
  unfold FLOAT_RANGE. rewrite !pow_IZR.
  apply IZR_le. vm_compute. discriminate.
Qed.

Lemma float_pow_returns x :
  x ^ 2 < FLOAT_RANGE -> float_pow x 2 = Return (x ^ 2).
Proof.
  intros Hx. unfold float_pow. rewrite (Rabs_pos_eq (x ^ 2)) by apply pow2_ge_0.
  replace (x ^ 2 <? FLOAT_RANGE) with true; [reflexivity|].
  symmetry. now apply num_ltb_lt.
Qed.

Lemma float_pow_raises x :
  FLOAT_RANGE <= x ^ 2 -> float_pow x 2 = Raise OverflowError.
Proof.
  intros Hx. unfold float_pow. rewrite (Rabs_pos_eq (x ^ 2)) by apply pow2_ge_0.
  replace (x ^ 2 <? FLOAT_RANGE) with false; [reflexivity|].
  symmetry. apply num_ltb_nlt. lra.
Qed.

(** ** Statistics *)

Lemma fold_plus_shift (l : list R) (a : R) :
  fold_left Rplus l a = a + fold_left Rplus l 0.
Proof.
  revert a. induction l as [|v t IH]; intros a; simpl; [lra|].
  rewrite (IH (a + v)), (IH (0 + v)). lra.
Qed.

Lemma sum_cons v (l : list R) : sum (v :: l) = v + sum l.
Proof. unfold sum. simpl. rewrite fold_plus_shift. lra. Qed.


Lemma sum_positive (l : list R) :
  l <> [] -> Forall (fun v => 0 < v) l -> 0 < sum l.
Proof.
  intros Hne Hall. induction Hall as [|v t Hv Ht IH]; [congruence|].
  rewrite sum_cons. destruct t as [|w t'].
  - unfold sum. simpl. lra.
  - assert (0 < sum (w :: t')) by (apply IH; discriminate). lra.
Qed.

Lemma sum_magnitude B (l : list R) :
  Forall (fun v => Rabs v <= B) l -> Rabs (sum l) <= INR (List.length l) * B.
Proof.
  induction 1 as [|v t Hv _ IH].
  - unfold sum. simpl. rewrite Rabs_R0. lra.
  - rewrite sum_cons. cbn [List.length]. rewrite S_INR.
    pose proof (Rabs_triang v (sum t)). lra.
Qed.

Lemma INR_length_positive A (l : list A) : (2 <= List.length l)%nat -> 0 < INR (List.length l).
Proof. intros H. apply lt_0_INR. lia. Qed.

Lemma mean_magnitude B values :
  (2 <= List.length values)%nat ->
  Forall (fun v => Rabs v <= B) values -> Rabs (mean values) <= B.
Proof.
  intros Hlen Hall. pose proof (INR_length_positive values Hlen) as Hn.
  pose proof (sum_magnitude Hall) as Hsum.
  unfold mean, Rdiv. rewrite Rabs_mult.
  rewrite (Rabs_pos_eq (/ INR (List.length values)))
    by (apply Rlt_le, Rinv_0_lt_compat, Hn).
  apply (Rmult_le_reg_r (INR (List.length values))); [exact Hn|].
  rewrite Rmult_assoc, Rinv_l by lra. lra.
Qed.

(** Values of magnitude up to [10^150] have their squared deviations in the
    range of floats. *)
Lemma deviations_in_range values :
  (2 <= List.length values)%nat ->
  Forall (fun v => Rabs v <= 10 ^ 150) values ->
  Forall (fun x => (x - mean values) ^ 2 < FLOAT_RANGE) values.
Proof.
  intros Hlen Hall. pose proof (mean_magnitude Hlen Hall) as Hmean.
  eapply Forall_impl; [|exact Hall]. cbv beta. intros x Hx.
  apply Rle_lt_trans with (2 := float_range_includes).
  rewrite <- (pow2_abs (x - mean values)).
  apply pow_incr. split; [apply Rabs_pos|].
  pose proof (Rabs_triang x (- mean values)) as Htri.
  rewrite Rabs_Ropp in Htri. unfold Rminus. lra.
Qed.




Lemma calculate_variance_short values :
  (List.length values < 2)%nat -> _calculate_variance values = Return 0.
Proof.
  intros Hlen. unfold _calculate_variance.
  destruct (Nat.ltb_spec (List.length values) 2); [reflexivity|lia].
Qed.


Lemma calculate_variance_in_range values :
  (2 <= List.length values)%nat -> mean values <> 0 ->
  Forall (fun x => (x - mean values) ^ 2 < FLOAT_RANGE) values ->
  _calculate_variance values = Return (coefficient_of_variation values).
Proof.
  intros Hlen Hmean Hrange.
  unfold _calculate_variance, coefficient_of_variation, mean in *.
  rewrite length_map.
  destruct (Nat.ltb_spec (List.length values) 2) as [Hlt|_]; [lia|].
  destruct (sum values / INR (List.length values) =? 0) eqn:Hz; num_bool;
    [contradiction|].
  rewrite (@comprehension_map _ _ _
             (fun x => (x - sum values / INR (List.length values)) ^ 2));
    [reflexivity|].
  intros x Hin. apply float_pow_returns.
  rewrite Forall_forall in Hrange. now apply Hrange.
Qed.

Lemma calculate_variance_general values :
  (2 <= List.length values)%nat -> mean values <> 0 ->
  Forall (fun v => Rabs v <= 10 ^ 150) values ->
  _calculate_variance values = Return (coefficient_of_variation values).
Proof.
  intros Hlen Hmean Hall.
  apply calculate_variance_in_range; [exact Hlen|exact Hmean|].
  now apply deviations_in_range.
Qed.

Lemma two_hundred_small : 200 <= 10 ^ 150.
Proof. rewrite pow_IZR. apply IZR_le. vm_compute. discriminate. Qed.







(** ** Text readability *)

Lemma has_type_true t e : has_type t e = true <-> e_type e = Some t.
Proof.
  unfold has_type. destruct (e_type e) as [s|].
  - rewrite String.eqb_eq. split; congruence.
  - split; discriminate.
Qed.

Lemma small_texts_In elements e :
  In e (small_texts elements) <->
  In e elements /\ e_type e = Some "text" /\ font_size e < 12.
Proof.
  unfold small_texts. rewrite !filter_In, has_type_true, num_ltb_lt.
  unfold MIN_TEXT_SIZE. tauto.
Qed.

Lemma small_text_true e :
  small_text e = true <-> e_type e = Some "text" /\ get (e_fontSize e) 20 < 12.
Proof.
  unfold small_text. now rewrite andb_true_iff, has_type_true, num_ltb_lt.
Qed.

Lemma small_texts_filter elements :
  small_texts elements = filter small_text elements.
Proof.
  unfold small_texts, small_text, font_size, MIN_TEXT_SIZE.
  induction elements as [|e rest IH]; [reflexivity|].
  cbn [filter]. destruct (has_type "text" e); cbn [filter andb];
    [destruct (get (e_fontSize e) 20 <? 12)|]; now rewrite IH.
Qed.

Lemma check_text_readability_count elements self :
  _check_text_readability elements self =
  match filter small_text elements with
  | [] => (Return tt, self)
  | small =>
      (Return tt,
       {| issues :=
            issues self
            ++ [("Small text detected: " ++ str_int (len small)
                 ++ " elements with font size < 12px")%string];
          warnings := warnings self;
          score := score self |})
  end.
Proof.
  unfold _check_text_readability, len. rewrite length_map, small_texts_filter.
  destruct (filter small_text elements) as [|e rest]; reflexivity.
Qed.

Lemma filter_without A (p : A -> bool) l1 a l2 :
  p a = false -> filter p (l1 ++ a :: l2) = filter p (l1 ++ l2).
Proof.
  intros Hp. rewrite !filter_app. cbn [filter]. now rewrite Hp.
Qed.

(** C7: a text element is counted as small exactly when its font size,
    taken as 20 when absent, is below 12; a text element without [fontSize]
    has size 20 and is never counted, and a diagram whose elements all lack
    [fontSize] gets no small-text issue.  The check appends its issue
    exactly when some element is a small text, the number in the issue is
    the number of small texts, and an element without [fontSize] makes no
    difference to what the check does. *)
Theorem small_texts_spec :
  (forall elements e,
      In e (small_texts elements) <->
      In e elements /\ e_type e = Some "text" /\ font_size e < 12) /\
  (forall elements e,
      e_fontSize e = None ->
      font_size e = 20 /\ ~ In e (small_texts elements)) /\
  (forall elements self,
      (forall e, In e elements -> e_fontSize e = None) ->
      _check_text_readability elements self = (Return tt, self)) /\
  (forall e,
      small_text e = true <->
      e_type e = Some "text" /\ get (e_fontSize e) 20 < 12) /\
  (forall elements self,
      _check_text_readability elements self =
      match filter small_text elements with
      | [] => (Return tt, self)
      | small =>
          (Return tt,
           {| issues :=
                issues self
                ++ [("Small text detected: " ++ str_int (len small)
                     ++ " elements with font size < 12px")%string];
              warnings := warnings self;
              score := score self |})
      end) /\
  (forall before e after self,
      e_fontSize e = None ->
      _check_text_readability (before ++ e :: after) self =
      _check_text_readability (before ++ after) self).
Proof.
  split; [exact small_texts_In|]. split; [|split].
  - intros elements e Habsent.
    assert (Hsize : font_size e = 20) by (unfold font_size; now rewrite Habsent).
    split; [exact Hsize|].
    rewrite small_texts_In, Hsize. intros (_ & _ & Hlt). lra.
  - intros elements self Habsent. unfold _check_text_readability.
    destruct (small_texts elements) as [|e rest] eqn:Hsmall; [reflexivity|].
    exfalso.
    assert (Hin : In e (small_texts elements)) by (rewrite Hsmall; now left).
    apply small_texts_In in Hin. destruct Hin as (Hin & _ & Hlt).
    unfold font_size in Hlt. rewrite (Habsent e Hin) in Hlt. simpl in Hlt. lra.
  - split; [exact small_text_true|]. split; [exact check_text_readability_count|].
    intros before e after self Habsent.
    rewrite !check_text_readability_count, filter_without; [reflexivity|].
    destruct (small_text e) eqn:Hsmall; [|reflexivity].
    apply small_text_true in Hsmall. rewrite Habsent in Hsmall.
    simpl in Hsmall. lra.
Qed.

Lemma small_texts_spec_witness :
  In (text_element (Some 8)) (small_texts [text_element None; text_element (Some 8)]) /\
  (font_size (text_element None) = 20 /\
   ~ In (text_element None)
        (small_texts [text_element None; text_element (Some 8)])) /\
  _check_text_readability [text_element None] __init__ = (Return tt, __init__) /\
  small_text (text_element (Some 8)) = true /\
  _check_text_readability [text_element None; text_element (Some 8)] __init__ =
  (Return tt,
   {| issues := ["Small text detected: 1 elements with font size < 12px"];
      warnings := [];
      score := 100 |}) /\
  _check_text_readability [text_element None; text_element (Some 8)] __init__ =
  _check_text_readability [text_element (Some 8)] __init__.
Proof.
  destruct small_texts_spec as (Hiff & Habsent & Hcheck & Hsmall & Hcount & Hskip).
  assert (H8 : small_text (text_element (Some 8)) = true).
  { apply (proj2 (Hsmall (text_element (Some 8)))).
    split; [reflexivity|]. simpl. lra. }
  assert (H20 : small_text (text_element None) = false).
  { destruct (small_text (text_element None)) eqn:Hs; [|reflexivity].
    apply (proj1 (Hsmall (text_element None))) in Hs. simpl in Hs. lra. }
  split; [|split; [|split; [|split; [|split]]]].
  - apply (proj2 (Hiff [text_element None; text_element (Some 8)]
                       (text_element (Some 8)))).
    split; [right; left; reflexivity|].
    split; [reflexivity|]. unfold font_size; simpl. lra.
  - apply (Habsent [text_element None; text_element (Some 8)] (text_element None)).
    reflexivity.
  - apply (Hcheck [text_element None] __init__).
    intros e [<-|[]]. reflexivity.
  - exact H8.
  - rewrite (Hcount [text_element None; text_element (Some 8)] __init__).
    cbn [filter]. rewrite H8, H20. reflexivity.
  - apply (Hskip [] (text_element None) [text_element (Some 8)] __init__).
    reflexivity.
Defined.

(** ** Sequencing *)

Lemma bind_return A B (m : M A) (k : A -> M B) self a self' :
  m self = (Return a, self') -> bind m k self = k a self'.
Proof. intros Hm. unfold bind. now rewrite Hm. Qed.

Lemma bind_raise A B (m : M A) (k : A -> M B) self e self' :
  m self = (Raise e, self') -> bind m k self = (Raise e, self').
Proof. intros Hm. unfold bind. now rewrite Hm. Qed.

(** ** The checks leave [score] alone *)

Lemma keeps_score_ret A (a : A) : keeps_score (ret a).
Proof. intros self; reflexivity. Qed.

Lemma keeps_score_lift A (o : outcome A) : keeps_score (lift o).
Proof. intros self; reflexivity. Qed.

Lemma keeps_score_append_issue s : keeps_score (append_issue s).
Proof. intros self; reflexivity. Qed.

Lemma keeps_score_append_warning s : keeps_score (append_warning s).
Proof. intros self; reflexivity. Qed.

Lemma keeps_score_bind A B (m : M A) (k : A -> M B) :
  keeps_score m -> (forall a, keeps_score (k a)) -> keeps_score (bind m k).
Proof.
  intros Hm Hk self. unfold bind. specialize (Hm self).
  destruct (m self) as [[a|e] self1]; simpl in *; [|exact Hm].
  now rewrite Hk.
Qed.

Ltac keeps_score :=
  cbv zeta;
  repeat match goal with
  | |- keeps_score (if ?b then _ else _) => destruct b
  | |- keeps_score (bind _ _) => apply keeps_score_bind; [|intros ?]
  | |- keeps_score (ret _) => apply keeps_score_ret
  | |- keeps_score (lift _) => apply keeps_score_lift
  | |- keeps_score (append_issue _) => apply keeps_score_append_issue
  | |- keeps_score (append_warning _) => apply keeps_score_append_warning
  end.

Lemma keeps_score_checks format_percent elements c :
  In c (checks format_percent) -> keeps_score (c elements).
Proof.
  unfold checks. simpl.
  intros [<-|[<-|[<-|[<-|[<-|[<-|[]]]]]]].
  - unfold _check_text_readability. keeps_score.
  - unfold _check_spacing_consistency. keeps_score.
  - unfold _check_alignment. keeps_score.
  - unfold _check_overlaps. keeps_score.
  - unfold _check_arrows. keeps_score.
  - unfold _check_visual_hierarchy. keeps_score.
Qed.

Lemma keeps_score_run_checks cs elements :
  (forall c, In c cs -> keeps_score (c elements)) ->
  keeps_score (run_checks cs elements).
Proof.
  induction cs as [|c rest IH]; intros Hcs; simpl.
  - apply keeps_score_ret.
  - apply keeps_score_bind; [apply Hcs; now left|].
    intros _. apply IH. intros c' Hin. apply Hcs. now right.
Qed.

(** ** The report *)

(** What [analyze] returns on a non-empty element list, in terms of the
    state the checks leave. *)
Lemma analyze_with_nonempty cs metadata self r self' :
  get (md_elements metadata) [] <> [] ->
  analyze_with cs metadata self = (Return r, self') ->
  exists after,
    run_checks cs (get (md_elements metadata) []) __init__ = (Return tt, after) /\
    let final_score :=
      Z.max 0 (score after - (len (issues after) * 10 + len (warnings after) * 5)) in
    r_score r = final_score /\
    r_grade r = _calculate_grade final_score /\
    r_issues r = issues after /\
    r_warnings r = warnings after /\
    r_element_count r = Some (len (get (md_elements metadata) [])) /\
    r_quality_level r = Some (_quality_level final_score).
Proof.
  intros Hne. unfold analyze_with.
  destruct (get (md_elements metadata) []) as [|e rest] eqn:Hels; [congruence|].
  cbn [nonempty negb]. unfold bind at 1. fold __init__.
  destruct (run_checks cs (e :: rest) __init__) as [[[]|err] after] eqn:Hrun;
    [|discriminate].
  unfold bind, _generate_suggestions. cbv zeta. cbn [score issues warnings].
  intros Heq. inversion Heq; subst; clear Heq.
  exists after. cbn [r_score r_grade r_issues r_warnings r_element_count r_quality_level].
  repeat split; reflexivity.
Qed.

Lemma analyze_with_empty cs metadata self :
  get (md_elements metadata) [] = [] ->
  analyze_with cs metadata self = (Return empty_report, __init__).
Proof. intros Hels. unfold analyze_with. now rewrite Hels. Qed.

(** C2: on the empty snapshot [analyze] returns the fixed report with score
    0, grade F and the single issue "Empty diagram", whatever the checks
    are: none of them takes part in the result or touches the instance. *)
Theorem analyze_empty_diagram :
  forall format_percent cs self,
  exists r,
    analyze format_percent {| md_elements := Some [] |} self = (Return r, __init__) /\
    analyze_with cs {| md_elements := Some [] |} self = (Return r, __init__) /\
    r_score r = 0%Z /\ r_grade r = "F" /\ r_issues r = ["Empty diagram"].
Proof.
  intros format_percent cs self. exists empty_report.
  repeat split; apply analyze_with_empty; reflexivity.
Qed.

(** C8: the result of [analyze], and the state it leaves, do not depend on
    the state of the instance it is called on; so a second call on the same
    instance returns the same report as the first. *)
Theorem analyze_deterministic :
  forall format_percent metadata,
    (forall self1 self2,
        analyze format_percent metadata self1 = analyze format_percent metadata self2) /\
    (forall self,
        let (first, self') := analyze format_percent metadata self in
        fst (analyze format_percent metadata self') = first).
Proof.
  intros format_percent metadata. split.
  - intros self1 self2. reflexivity.
  - intros self.
    destruct (analyze format_percent metadata self) as [first self'] eqn:Hfirst.
    change (analyze format_percent metadata self')
      with (analyze format_percent metadata self).
    now rewrite Hfirst.
Qed.

(** C1 (amended): on a non-empty snapshot the score of the report is
    [clamp(100 - 10*len(issues) - 5*len(warnings), 0, 100)] for the issues
    and warnings of that report; on the empty snapshot the score is 0. *)
Theorem analyze_score_formula format_percent metadata self r self' :
  analyze format_percent metadata self = (Return r, self') ->
  (get (md_elements metadata) [] <> [] ->
   r_score r = clamp (100 - 10 * len (r_issues r) - 5 * len (r_warnings r)) 0 100) /\
  (get (md_elements metadata) [] = [] -> r_score r = 0%Z).
Proof.
  intros Hrun. split.
  - intros Hne.
    destruct (analyze_with_nonempty _ _ _ Hne Hrun)
      as (after & Hchecks & Hscore & _ & Hissues & Hwarnings & _).
    pose proof (@keeps_score_run_checks (checks format_percent)
                  (get (md_elements metadata) [])
                  (fun c => @keeps_score_checks format_percent _ c) __init__) as Hkeep.
    rewrite Hchecks in Hkeep. simpl in Hkeep.
    rewrite Hscore, Hissues, Hwarnings, Hkeep. unfold clamp, len. lia.
  - intros Hempty. unfold analyze in Hrun.
    rewrite (analyze_with_empty _ _ _ Hempty) in Hrun.
    now inversion Hrun.
Qed.

(** C3 (amended): on a non-empty snapshot the report has an [element_count],
    the number of elements of the snapshot, and a [quality_level]. *)
Theorem analyze_element_count format_percent metadata self r self' :
  get (md_elements metadata) [] <> [] ->
  analyze format_percent metadata self = (Return r, self') ->
  r_element_count r = Some (len (get (md_elements metadata) [])) /\
  r_quality_level r = Some (_quality_level (r_score r)).
Proof.
  intros Hne Hrun.
  destruct (analyze_with_nonempty _ _ _ Hne Hrun)
    as (after & _ & Hscore & _ & _ & _ & Hcount & Hlevel).
  split; [exact Hcount|]. now rewrite Hscore.
Qed.

(** ** End to end: two overlapping rectangles *)

Section TwoRectangles.

Variables id1 id2 : option string.

Let box1 : element := rectangle id1 100 100 200 100.
Let box2 : element := rectangle id2 150 120 200 100.

Lemma boxes_are_shapes : filter is_shape [box1; box2] = [box1; box2].
Proof. reflexivity. Qed.

Lemma boxes_no_gap : _calculate_gap box1 box2 = None.
Proof.
  rewrite calculate_gap_unfold.
  unfold geom_x, geom_y, geom_w, geom_h, box1, box2, rectangle, shape, get.
  cbn [e_x e_y e_width e_height].
  replace (Rabs (100 - 120) <? Rmin 100 100 * 0.5) with true
    by (symmetry; num_decide).
  replace (100 + 200 <? 150) with false by (symmetry; num_decide).
  replace (150 + 200 <? 100) with false by (symmetry; num_decide).
  replace (Rabs (100 - 150) <? Rmin 200 200 * 0.5) with true
    by (symmetry; num_decide).
  replace (100 + 100 <? 120) with false by (symmetry; num_decide).
  replace (120 + 100 <? 100) with false by (symmetry; num_decide).
  reflexivity.
Qed.

Lemma boxes_overlap : _elements_overlap box1 box2 = true.
Proof.
  apply elements_overlap_spec. unfold disjoint_boxes.
  unfold geom_x, geom_y, geom_w, geom_h, box1, box2, rectangle, shape, get.
  cbn [e_x e_y e_width e_height]. lra.
Qed.

Lemma boxes_text_readability self :
  _check_text_readability [box1; box2] self = (Return tt, self).
Proof. reflexivity. Qed.

Lemma boxes_spacing format_percent self :
  _check_spacing_consistency format_percent [box1; box2] self = (Return tt, self).
Proof.
  unfold _check_spacing_consistency. rewrite boxes_are_shapes.
  unfold h_gaps, v_gaps, gaps.
  cbn [List.length Nat.ltb Nat.leb pairs map app flat_map].
  rewrite boxes_no_gap. reflexivity.
Qed.

Lemma count_near_two a b threshold :
  _count_near_values [a; b] threshold =
  if Rabs (a - b) <=? threshold then 1%Z else 0%Z.
Proof. reflexivity. Qed.

Lemma boxes_alignment self :
  _check_alignment [box1; box2] self =
  (Return tt,
   {| issues := issues self;
      warnings :=
        warnings self
        ++ ["Few aligned elements detected - consider using alignment tools"];
      score := score self |}).
Proof.
  unfold _check_alignment. rewrite boxes_are_shapes.
  cbn [List.length Nat.ltb Nat.leb]. cbv zeta.
  unfold bind, lift, box1, box2, rectangle, shape, get, number.
  cbn [comprehension map e_x e_y e_width e_height].
  rewrite !count_near_two. unfold MIN_ALIGNMENT_THRESHOLD, len.
  cbn [List.length Z.of_nat Pos.of_succ_nat Pos.succ].
  replace (Rabs (100 - 150) <=? 5) with false by (symmetry; num_decide).
  replace (Rabs (100 - 120) <=? 5) with false by (symmetry; num_decide).
  replace (Rabs (100 + 200 / 2 - (150 + 200 / 2)) <=? 5) with false
    by (symmetry; num_decide).
  replace (Rabs (100 + 100 / 2 - (120 + 100 / 2)) <=? 5) with false
    by (symmetry; num_decide).
  cbn [Z.add].
  replace (0 <? 2 * 0.3) with true by (symmetry; num_decide).
  reflexivity.
Qed.

Lemma boxes_overlaps self :
  _check_overlaps [box1; box2] self =
  (Return tt,
   {| issues := issues self ++ ["Overlapping elements detected: 1 pairs"];
      warnings := warnings self;
      score := score self |}).
Proof.
  unfold _check_overlaps. rewrite boxes_are_shapes.
  unfold overlaps. cbn [pairs map app filter].
  rewrite boxes_overlap. reflexivity.
Qed.

Lemma boxes_arrows self : _check_arrows [box1; box2] self = (Return tt, self).
Proof. reflexivity. Qed.

Lemma boxes_hierarchy self :
  _check_visual_hierarchy [box1; box2] self =
  (Return tt,
   {| issues := issues self;
      warnings :=
        warnings self
        ++ ["All elements are similar size - consider using size for visual hierarchy"];
      score := score self |}).
Proof.
  unfold _check_visual_hierarchy. rewrite boxes_are_shapes.
  cbn [List.length Nat.ltb Nat.leb]. cbv zeta.
  unfold box1, box2, rectangle, shape, get, max_list, min_list.
  cbn [map e_width e_height fold_left nonempty].
  replace (Num.ltb (200 * 100) (200 * 100)) with false by (symmetry; num_decide).
  replace (200 * 100 >? 0) with true by (symmetry; num_decide).
  replace (200 * 100 / (200 * 100) >? 0.95) with true by (symmetry; num_decide).
  reflexivity.
Qed.

Lemma boxes_run_checks format_percent self :
  run_checks (checks format_percent) [box1; box2] self =
  (Return tt,
   {| issues := issues self ++ ["Overlapping elements detected: 1 pairs"];
      warnings :=
        (warnings self
         ++ ["Few aligned elements detected - consider using alignment tools"])
        ++ ["All elements are similar size - consider using size for visual hierarchy"];
      score := score self |}).
Proof.
  unfold checks. cbn [run_checks].
  rewrite (@bind_return _ _ _ _ _ _ _ (boxes_text_readability self)).
  rewrite (@bind_return _ _ _ _ _ _ _ (boxes_spacing format_percent self)).
  rewrite (@bind_return _ _ _ _ _ _ _ (boxes_alignment self)).
  rewrite (@bind_return _ _ _ _ _ _ _ (boxes_overlaps _)).
  rewrite (@bind_return _ _ _ _ _ _ _ (boxes_arrows _)).
  rewrite (@bind_return _ _ _ _ _ _ _ (boxes_hierarchy _)).
  reflexivity.
Qed.

Lemma analyze_two_rectangles format_percent self :
  fst (analyze format_percent {| md_elements := Some [box1; box2] |} self)
  = Return two_rectangles_report.
Proof.
  unfold analyze, analyze_with.
  cbn [md_elements get nonempty negb].
  rewrite (@bind_return _ _ _ _ _ _ _ (boxes_run_checks format_percent _)).
  reflexivity.
Qed.

End TwoRectangles.

(** C9: for the two rectangles at (100,100,200,100) and (150,120,200,100),
    whatever their ids, [analyze] returns a report whose issues contain the
    overlapping-elements entry and whose score is at most 90. *)
Theorem analyze_overlapping_rectangles :
  forall format_percent id1 id2 self,
  exists r,
    fst (analyze format_percent
           {| md_elements := Some [rectangle id1 100 100 200 100;
                                   rectangle id2 150 120 200 100] |} self)
    = Return r /\
    In "Overlapping elements detected: 1 pairs" (r_issues r) /\
    any (fun issue => contains "Overlapping" issue) (r_issues r) = true /\
    (r_score r <= 90)%Z.
Proof.
  intros format_percent id1 id2 self. exists two_rectangles_report.
  split; [apply analyze_two_rectangles|].
  split; [now left|]. split; [reflexivity|]. simpl. lia.
Qed.

(** ** When [analyze] returns *)

Lemma returns_ret : returns (ret tt).
Proof. intros self. now exists self. Qed.

Lemma returns_append_issue s : returns (append_issue s).
Proof. intros self. eexists. reflexivity. Qed.

Lemma returns_append_warning s : returns (append_warning s).
Proof. intros self. eexists. reflexivity. Qed.

Lemma returns_bind (m : M unit) (k : unit -> M unit) :
  returns m -> returns (k tt) -> returns (bind m k).
Proof.
  intros Hm Hk self. destruct (Hm self) as [self1 H1].
  destruct (Hk self1) as [self2 H2]. exists self2.
  now rewrite (@bind_return _ _ _ _ _ _ _ H1).
Qed.



Lemma returns_lift_bind A (o : outcome A) (k : A -> M unit) a :
  o = Return a -> returns (k a) -> returns (bind (lift o) k).
Proof.
  intros -> Hk self. destruct (Hk self) as [self' H]. exists self'. exact H.
Qed.

Ltac returns :=
  cbv zeta;
  repeat match goal with
  | |- returns (if ?b then _ else _) => destruct b
  | H : ?o = Return _ |- returns (bind (lift ?o) _) =>
      apply (returns_lift_bind _ H)
  | |- returns (bind _ _) => apply returns_bind
  | |- returns (ret tt) => apply returns_ret
  | |- returns (append_issue _) => apply returns_append_issue
  | |- returns (append_warning _) => apply returns_append_warning
  end.







Lemma analyze_lone_arrow format_percent self :
  analyze format_percent {| md_elements := Some [arrow None None None] |} self
  = (Return lone_arrow_report,
     {| issues := ["Disconnected arrows: 1 arrows not properly connected"];
        warnings := [];
        score := 90 |}).
Proof. reflexivity. Qed.

Lemma analyze_score_formula_witness :
  r_score lone_arrow_report =
  clamp (100 - 10 * len (r_issues lone_arrow_report)
         - 5 * len (r_warnings lone_arrow_report)) 0 100.
Proof.
  refine (proj1 (@analyze_score_formula (fun _ => "")
                   {| md_elements := Some [arrow None None None] |}
                   __init__ lone_arrow_report _ _) _).
  - apply analyze_lone_arrow.
  - simpl. discriminate.
Defined.

Lemma analyze_element_count_witness :
  r_element_count lone_arrow_report = Some 1%Z /\
  r_quality_level lone_arrow_report = Some (_quality_level (r_score lone_arrow_report)).
Proof.
  refine (@analyze_element_count (fun _ => "")
            {| md_elements := Some [arrow None None None] |}
            __init__ lone_arrow_report _ _ _).
  - simpl. discriminate.
  - apply analyze_lone_arrow.
Defined.

(** C1, as stated, fails on the empty snapshot: the report has one issue and
    no warning, so the formula gives 90, and the score is 0. *)
Lemma score_formula_fails_on_empty_diagram :
  exists r self',
    analyze (fun _ => "") {| md_elements := Some [] |} __init__ = (Return r, self') /\
    r_score r = 0%Z /\
    clamp (100 - 10 * len (r_issues r) - 5 * len (r_warnings r)) 0 100 = 90%Z /\
    r_score r <> clamp (100 - 10 * len (r_issues r) - 5 * len (r_warnings r)) 0 100.
Proof.
  exists empty_report, __init__.
  split; [reflexivity|]. split; [reflexivity|]. split; [reflexivity|].
  simpl. discriminate.
Qed.

(** C3, as stated, fails on the empty snapshot: its report has neither an
    [element_count] nor a [quality_level]. *)
Lemma element_count_absent_on_empty_diagram :
  exists r self',
    analyze (fun _ => "") {| md_elements := Some [] |} __init__ = (Return r, self') /\
    r_element_count r = None /\
    r_quality_level r = None /\
    r_element_count r <> Some (len (@nil element)).
Proof.
  exists empty_report, __init__.
  split; [reflexivity|]. split; [reflexivity|]. split; [reflexivity|].
  simpl. discriminate.
Qed.

(** ** What the checks append *)

Lemma adds_ret A (a : A) : adds (ret a) [] 0.
Proof.
  intros self a' self' H. inversion H; subst. exists [].
  split; [simpl; lia|]. rewrite !app_nil_r. now destruct self'.
Qed.

Lemma adds_lift A (o : outcome A) : adds (lift o) [] 0.
Proof.
  intros self a' self' H. inversion H; subst. exists [].
  split; [simpl; lia|]. rewrite !app_nil_r. now destruct self'.
Qed.

Lemma adds_append_issue s : adds (append_issue s) [s] 0.
Proof.
  intros self a self' H. inversion H; subst. exists [].
  split; [simpl; lia|]. now rewrite app_nil_r.
Qed.

Lemma adds_append_warning s : adds (append_warning s) [] 1.
Proof.
  intros self a self' H. inversion H; subst. exists [s].
  split; [simpl; lia|]. now rewrite app_nil_r.
Qed.

Lemma adds_bind A B (m : M A) (k : A -> M B) I1 I2 n1 n2 :
  adds m I1 n1 -> (forall a, adds (k a) I2 n2) ->
  adds (bind m k) (I1 ++ I2) (n1 + n2).
Proof.
  intros Hm Hk self b self' H. unfold bind in H.
  destruct (m self) as [[a|e] self1] eqn:Hself1; [|discriminate].
  destruct (Hm _ _ _ Hself1) as (W1 & Hlen1 & ->).
  destruct (Hk a _ _ _ H) as (W2 & Hlen2 & ->).
  exists (W1 ++ W2). split; [rewrite length_app; lia|].
  cbn [issues warnings score]. now rewrite !app_assoc.
Qed.

Lemma adds_weaken A (m : M A) I I' n n' :
  adds m I n -> I = I' -> (n <= n')%nat -> adds m I' n'.
Proof.
  intros Hm <- Hle self a self' H.
  destruct (Hm _ _ _ H) as (W & Hlen & ->). exists W. split; [lia|reflexivity].
Qed.

Ltac adds_step :=
  match goal with
  | |- adds (ret _) _ _ => eapply adds_weaken; [apply adds_ret|reflexivity|lia]
  | |- adds (lift _) _ _ => eapply adds_weaken; [apply adds_lift|reflexivity|lia]
  | |- adds (append_warning _) _ _ =>
      eapply adds_weaken; [apply adds_append_warning|reflexivity|lia]
  | |- adds (append_issue _) _ _ =>
      eapply adds_weaken; [apply adds_append_issue|reflexivity|lia]
  | |- adds (if ?b then _ else _) _ _ => destruct b
  end.

Lemma adds_text_readability elements :
  adds (_check_text_readability elements) (text_issues elements) 0.
Proof.
  unfold _check_text_readability, text_issues, len.
  rewrite length_map.
  destruct (small_texts elements) as [|e rest]; cbn [map nonempty].
  - apply adds_ret.
  - apply adds_append_issue.
Qed.

Lemma adds_spacing_consistency format_percent elements :
  adds (_check_spacing_consistency format_percent elements) [] 2.
Proof.
  unfold _check_spacing_consistency. cbv zeta.
  destruct (List.length (filter is_shape elements) <? 2)%nat; [adds_step|].
  assert (Hone : forall (o : outcome R) (k : R -> M unit),
             (forall variance, adds (k variance) [] 1) ->
             adds (bind (lift o) k) [] 1).
  { intros o k Hk.
    eapply adds_weaken;
      [apply adds_bind with (I1 := []) (I2 := []) (n1 := 0%nat) (n2 := 1%nat)
      | reflexivity | lia]; [apply adds_lift|exact Hk]. }
  eapply adds_weaken; [apply adds_bind with (I1 := []) (I2 := []) (n1 := 1%nat) (n2 := 1%nat)
                      | reflexivity | lia];
    [|intros _];
    (destruct (nonempty _); [apply Hone; intros variance|]); repeat adds_step.
Qed.

Lemma adds_alignment elements : adds (_check_alignment elements) [] 1.
Proof.
  unfold _check_alignment. cbv zeta.
  destruct (List.length (filter is_shape elements) <? 2)%nat; [adds_step|].
  repeat (eapply adds_weaken;
          [apply adds_bind with (I1 := []) (I2 := []) (n1 := 0%nat) (n2 := 1%nat)
          | reflexivity | lia]; [adds_step|intros ?]).
  repeat adds_step.
Qed.

Lemma adds_overlaps elements :
  adds (_check_overlaps elements) (overlap_issues elements) 0.
Proof.
  unfold _check_overlaps, overlap_issues. cbv zeta.
  destruct (overlaps (filter is_shape elements)) as [|p rest]; cbn [nonempty].
  - apply adds_ret.
  - apply adds_append_issue.
Qed.

Lemma adds_arrows elements : adds (_check_arrows elements) (arrow_issues elements) 0.
Proof.
  unfold _check_arrows, arrow_issues. cbv zeta.
  destruct (filter (has_type "arrow") elements) as [|a arrows] eqn:Harrows.
  - apply adds_ret.
  - cbn [nonempty negb].
    destruct (disconnected (a :: arrows)) as [|d rest]; cbn [nonempty].
    + apply adds_ret.
    + apply adds_append_issue.
Qed.

Lemma adds_visual_hierarchy elements : adds (_check_visual_hierarchy elements) [] 1.
Proof.
  unfold _check_visual_hierarchy. cbv zeta. repeat adds_step.
Qed.

Lemma adds_run_checks format_percent elements :
  adds (run_checks (checks format_percent) elements)
       (text_issues elements ++ overlap_issues elements ++ arrow_issues elements) 4.
Proof.
  unfold checks. cbn [run_checks].
  eapply adds_weaken.
  - apply adds_bind; [apply adds_text_readability|intros _].
    apply adds_bind; [apply adds_spacing_consistency|intros _].
    apply adds_bind; [apply adds_alignment|intros _].
    apply adds_bind; [apply adds_overlaps|intros _].
    apply adds_bind; [apply adds_arrows|intros _].
    apply adds_bind; [apply adds_visual_hierarchy|intros _].
    apply adds_ret.
  - cbn [app]. now rewrite !app_nil_r.
  - cbn. lia.
Qed.

(** The report and the final state of [analyze] on a non-empty snapshot, in
    terms of the state the checks leave. *)
Lemma analyze_nonempty_result format_percent metadata self r self' :
  get (md_elements metadata) [] <> [] ->
  analyze format_percent metadata self = (Return r, self') ->
  exists after suggestions,
    run_checks (checks format_percent) (get (md_elements metadata) []) __init__
    = (Return tt, after) /\
    self' = {| issues := issues after;
               warnings := warnings after;
               score := Z.max 0 (score after
                                 - (len (issues after) * 10 + len (warnings after) * 5)) |} /\
    _generate_suggestions self' = (Return suggestions, self') /\
    r = {| r_score := score self';
           r_grade := _calculate_grade (score self');
           r_issues := issues self';
           r_warnings := warnings self';
           r_suggestions := suggestions;
           r_element_count := Some (len (get (md_elements metadata) []));
           r_quality_level := Some (_quality_level (score self')) |}.
Proof.
  intros Hne. unfold analyze, analyze_with.
  destruct (get (md_elements metadata) []) as [|e rest] eqn:Hels; [congruence|].
  cbn [nonempty negb]. unfold bind at 1. fold __init__.
  destruct (run_checks (checks format_percent) (e :: rest) __init__)
    as [[[]|err] after] eqn:Hrun; [|discriminate].
  cbv zeta. unfold bind.
  destruct (_generate_suggestions _) as [[suggestions|err] final] eqn:Hsug;
    [|discriminate].
  assert (Hfinal : final =
                   {| issues := issues after; warnings := warnings after;
                      score := Z.max 0 (score after
                                        - (len (issues after) * 10
                                           + len (warnings after) * 5)) |})
    by (unfold _generate_suggestions in Hsug; now inversion Hsug).
  subst final. intros Heq. inversion Heq; subst; clear Heq.
  exists after, suggestions. cbn [issues warnings score].
  repeat split; auto.
Qed.

(** The issues and warnings of a report on a non-empty snapshot. *)
Lemma analyze_nonempty_effects format_percent metadata self r self' :
  get (md_elements metadata) [] <> [] ->
  analyze format_percent metadata self = (Return r, self') ->
  let elements := get (md_elements metadata) [] in
  r_issues r = text_issues elements ++ overlap_issues elements ++ arrow_issues elements /\
  (List.length (r_warnings r) <= 4)%nat /\
  r_score r = Z.max 0 (100 - (len (r_issues r) * 10 + len (r_warnings r) * 5)).
Proof.
  intros Hne Hrun elements.
  destruct (@analyze_nonempty_result _ _ _ _ _ Hne Hrun)
    as (after & suggestions & Hchecks & -> & _ & ->).
  destruct (@adds_run_checks format_percent elements _ _ _ Hchecks)
    as (W & Hlen & ->).
  cbn. repeat split; auto.
Qed.

Lemma report_issues_of_run format_percent metadata self r self' :
  get (md_elements metadata) [] <> [] ->
  analyze format_percent metadata self = (Return r, self') ->
  r_issues r =
  text_issues (get (md_elements metadata) [])
  ++ overlap_issues (get (md_elements metadata) [])
  ++ arrow_issues (get (md_elements metadata) []).
Proof.
  intros Hne Hrun.
  exact (proj1 (@analyze_nonempty_effects _ _ _ _ _ Hne Hrun)).
Qed.

Lemma text_issues_length elements : (List.length (text_issues elements) <= 1)%nat.
Proof. unfold text_issues. destruct (small_texts elements); simpl; lia. Qed.

Lemma overlap_issues_length elements :
  (List.length (overlap_issues elements) <= 1)%nat.
Proof.
  unfold overlap_issues. destruct (overlaps (filter is_shape elements)); simpl; lia.
Qed.

Lemma arrow_issues_length elements : (List.length (arrow_issues elements) <= 1)%nat.
Proof.
  unfold arrow_issues.
  destruct (disconnected (filter (has_type "arrow") elements)); simpl; lia.
Qed.

(** X1: on a non-empty snapshot the issues of the report are, in this order,
    the small-text issue, the overlap issue and the disconnected-arrow issue,
    each present exactly when its check found something and carrying the
    number found. *)
Theorem report_issues format_percent metadata self r self' :
  get (md_elements metadata) [] <> [] ->
  analyze format_percent metadata self = (Return r, self') ->
  r_issues r =
  text_issues (get (md_elements metadata) [])
  ++ overlap_issues (get (md_elements metadata) [])
  ++ arrow_issues (get (md_elements metadata) []).
Proof.
  intros Hne Hrun.
  exact (proj1 (@analyze_nonempty_effects _ _ _ _ _ Hne Hrun)).
Qed.

Lemma report_issues_witness :
  r_issues lone_arrow_report =
  text_issues [arrow None None None]
  ++ overlap_issues [arrow None None None]
  ++ arrow_issues [arrow None None None].
Proof.
  refine (@report_issues (fun _ => "")
            {| md_elements := Some [arrow None None None] |}
            __init__ lone_arrow_report _ _ _).
  - simpl. discriminate.
  - apply analyze_lone_arrow.
Defined.

(** X2: every report has a score between 0 and 100; on a non-empty snapshot
    there are at most three issues and four warnings, so the score is at
    least 50. *)
Theorem report_bounds format_percent metadata self r self' :
  analyze format_percent metadata self = (Return r, self') ->
  (0 <= r_score r <= 100)%Z /\
  (get (md_elements metadata) [] <> [] ->
   (List.length (r_issues r) <= 3)%nat /\
   (List.length (r_warnings r) <= 4)%nat /\
   (50 <= r_score r)%Z).
Proof.
  intros Hrun.
  assert (Hnonempty :
            get (md_elements metadata) [] <> [] ->
            (List.length (r_issues r) <= 3)%nat /\
            (List.length (r_warnings r) <= 4)%nat /\
            (50 <= r_score r <= 100)%Z).
  { intros Hne.
    destruct (@analyze_nonempty_effects _ _ _ _ _ Hne Hrun)
      as (Hissues & Hwarnings & Hscore).
    assert (Hthree : (List.length (r_issues r) <= 3)%nat).
    { rewrite Hissues, !length_app.
      pose proof (text_issues_length (get (md_elements metadata) [])).
      pose proof (overlap_issues_length (get (md_elements metadata) [])).
      pose proof (arrow_issues_length (get (md_elements metadata) [])).
      lia. }
    repeat split; auto; rewrite Hscore; unfold len; lia. }
  split.
  - destruct (get (md_elements metadata) []) as [|e rest] eqn:Hels.
    + unfold analyze in Hrun.
      rewrite (@analyze_with_empty _ _ _ Hels) in Hrun.
      inversion Hrun; subst. simpl. lia.
    + assert (Hne : e :: rest <> []) by discriminate.
      destruct (Hnonempty Hne) as (_ & _ & Hscore). lia.
  - intros Hne. destruct (Hnonempty Hne) as (H3 & H4 & Hscore).
    repeat split; auto; lia.
Qed.

Lemma report_bounds_witness :
  (0 <= r_score lone_arrow_report <= 100)%Z /\
  ([arrow None None None] <> [] ->
   (List.length (r_issues lone_arrow_report) <= 3)%nat /\
   (List.length (r_warnings lone_arrow_report) <= 4)%nat /\
   (50 <= r_score lone_arrow_report)%Z).
Proof.
  refine (@report_bounds (fun _ => "")
            {| md_elements := Some [arrow None None None] |}
            __init__ lone_arrow_report _ _).
  apply analyze_lone_arrow.
Defined.

(** X3: after [analyze] has returned on a non-empty snapshot, the instance
    holds the issues, the warnings and the score of the report; after the
    empty snapshot it holds no issue, no warning and the score 100, although
    the report says 0. *)
Theorem instance_after_analyze format_percent metadata self r self' :
  analyze format_percent metadata self = (Return r, self') ->
  (get (md_elements metadata) [] <> [] ->
   issues self' = r_issues r /\ warnings self' = r_warnings r /\
   score self' = r_score r) /\
  (get (md_elements metadata) [] = [] ->
   self' = {| issues := []; warnings := []; score := 100 |} /\ r_score r = 0%Z).
Proof.
  intros Hrun. split.
  - intros Hne.
    destruct (@analyze_nonempty_result _ _ _ _ _ Hne Hrun)
      as (after & suggestions & _ & _ & _ & ->).
    repeat split; reflexivity.
  - intros Hempty. unfold analyze in Hrun.
    rewrite (@analyze_with_empty _ _ _ Hempty) in Hrun.
    inversion Hrun; subst. split; reflexivity.
Qed.

Lemma instance_after_analyze_witness :
  (issues {| issues := ["Disconnected arrows: 1 arrows not properly connected"];
             warnings := []; score := 90 |} = r_issues lone_arrow_report /\
   warnings {| issues := ["Disconnected arrows: 1 arrows not properly connected"];
               warnings := []; score := 90 |} = r_warnings lone_arrow_report /\
   score {| issues := ["Disconnected arrows: 1 arrows not properly connected"];
            warnings := []; score := 90 |} = r_score lone_arrow_report) /\
  (__init__ = {| issues := []; warnings := []; score := 100 |} /\
   r_score empty_report = 0%Z).
Proof.
  split.
  - refine (proj1 (@instance_after_analyze (fun _ => "")
                     {| md_elements := Some [arrow None None None] |}
                     __init__ lone_arrow_report _ _) _).
    + apply analyze_lone_arrow.
    + simpl. discriminate.
  - refine (proj2 (@instance_after_analyze (fun _ => "")
                     {| md_elements := Some [] |}
                     __init__ empty_report __init__ _) _);
      reflexivity.
Defined.

Lemma grade_level_bands s :
  In (_calculate_grade s, _quality_level s)
     [("A", "Excellent"); ("B", "Good"); ("C", "Fair"); ("D", "Poor");
      ("F", "Needs Improvement")].
Proof.
  unfold _calculate_grade, _quality_level.
  destruct (s >=? 90)%Z; [simpl; auto|].
  destruct (s >=? 80)%Z; [simpl; auto|].
  destruct (s >=? 70)%Z; [simpl; auto|].
  destruct (s >=? 60)%Z; simpl; auto 6.
Qed.

(** X4: the grade of every report is the grade of its score, and grade and
    quality level always come from the same band; only the report of the
    empty snapshot (grade F) has no quality level. *)
Theorem report_grade_and_level format_percent metadata self r self' :
  analyze format_percent metadata self = (Return r, self') ->
  r_grade r = _calculate_grade (r_score r) /\
  In (r_grade r, r_quality_level r)
     [("A", Some "Excellent"); ("B", Some "Good"); ("C", Some "Fair");
      ("D", Some "Poor"); ("F", Some "Needs Improvement"); ("F", None)] /\
  (r_quality_level r = None <-> get (md_elements metadata) [] = []).
Proof.
  intros Hrun.
  destruct (get (md_elements metadata) []) as [|e rest] eqn:Hels.
  - unfold analyze in Hrun. rewrite (@analyze_with_empty _ _ _ Hels) in Hrun.
    inversion Hrun; subst. split; [reflexivity|]. split; [simpl; auto 7|].
    split; reflexivity.
  - assert (Hne : get (md_elements metadata) [] <> []) by (rewrite Hels; discriminate).
    destruct (@analyze_nonempty_result _ _ _ _ _ Hne Hrun)
      as (after & suggestions & _ & _ & _ & ->).
    cbn [r_grade r_score r_quality_level].
    split; [reflexivity|]. split.
    + pose proof (grade_level_bands (score self')) as Hband.
      simpl in Hband. simpl.
      destruct Hband as [H|[H|[H|[H|[H|[]]]]]]; inversion H; auto 7.
    + split; [discriminate|intros H; discriminate].
Qed.

Lemma report_grade_and_level_witness :
  r_grade lone_arrow_report = _calculate_grade (r_score lone_arrow_report) /\
  In (r_grade lone_arrow_report, r_quality_level lone_arrow_report)
     [("A", Some "Excellent"); ("B", Some "Good"); ("C", Some "Fair");
      ("D", Some "Poor"); ("F", Some "Needs Improvement"); ("F", None)] /\
  (r_quality_level lone_arrow_report = None <-> [arrow None None None] = []).
Proof.
  refine (@report_grade_and_level (fun _ => "")
            {| md_elements := Some [arrow None None None] |}
            __init__ lone_arrow_report _ _).
  apply analyze_lone_arrow.
Defined.

(** ** Suggestions *)

Lemma generate_suggestions_state self :
  snd (_generate_suggestions self) = self.
Proof. reflexivity. Qed.

Lemma fallback_nonempty (l : list string) (s : string) :
  (if negb (nonempty l) then l ++ [s] else l) <> [].
Proof. destruct l; simpl; discriminate. Qed.

Lemma generate_suggestions_nonempty self suggestions :
  _generate_suggestions self = (Return suggestions, self) -> suggestions <> [].
Proof.
  unfold _generate_suggestions. cbv zeta. intros H. inversion H.
  apply fallback_nonempty.
Qed.

Lemma generate_suggestions_clean self suggestions :
  issues self = [] -> warnings self = [] ->
  _generate_suggestions self = (Return suggestions, self) ->
  suggestions = ["Diagram looks good! No major issues detected."].
Proof.
  unfold _generate_suggestions. intros -> ->. cbn. intros H. now inversion H.
Qed.

Lemma generate_suggestions_triggers self suggestions :
  _generate_suggestions self = (Return suggestions, self) ->
  (any (fun issue => contains "Small text" issue) (issues self) = true ->
   In "Increase font size to at least 12px for better readability" suggestions) /\
  (any (fun issue => contains "Overlapping" issue) (issues self) = true ->
   In "Separate overlapping elements or increase spacing" suggestions) /\
  (any (fun issue => contains "Disconnected arrows" issue) (issues self) = true ->
   In "Connect all arrows to shapes using bind-arrow command" suggestions) /\
  (In "Diagram looks good! No major issues detected." suggestions ->
   any (fun issue => contains "Small text" issue) (issues self) = false /\
   any (fun issue => contains "Overlapping" issue) (issues self) = false /\
   any (fun issue => contains "Disconnected arrows" issue) (issues self) = false).
Proof.
  unfold _generate_suggestions. cbv zeta.
  repeat match goal with
  | |- context [any ?p ?l] => destruct (any p l) eqn:?
  end;
  intros H; inversion H; subst; clear H; cbn [app nonempty negb];
  repeat split; intros; try discriminate; try reflexivity;
  first [ solve [cbn [In]; auto 10]
        | cbn [In] in *;
          repeat match goal with
          | Hor : _ \/ _ |- _ => destruct Hor
          end; try discriminate; try contradiction ].
Qed.

Lemma any_app A (p : A -> bool) l1 l2 : any p (l1 ++ l2) = any p l1 || any p l2.
Proof. apply existsb_app. Qed.

Lemma text_issues_trigger elements :
  small_texts elements <> [] ->
  any (fun issue => contains "Small text" issue) (text_issues elements) = true.
Proof.
  unfold text_issues. destruct (small_texts elements); [congruence|reflexivity].
Qed.

Lemma overlap_issues_trigger elements :
  overlaps (filter is_shape elements) <> [] ->
  any (fun issue => contains "Overlapping" issue) (overlap_issues elements) = true.
Proof.
  unfold overlap_issues.
  destruct (overlaps (filter is_shape elements)); [congruence|reflexivity].
Qed.

Lemma arrow_issues_trigger elements :
  disconnected (filter (has_type "arrow") elements) <> [] ->
  any (fun issue => contains "Disconnected arrows" issue) (arrow_issues elements) = true.
Proof.
  unfold arrow_issues.
  destruct (disconnected (filter (has_type "arrow") elements));
    [congruence|reflexivity].
Qed.

(** X5: every report carries at least one suggestion, and the report of a
    non-empty snapshot with no issue and no warning carries exactly the
    affirmative one. *)
Theorem report_suggestions format_percent metadata self r self' :
  analyze format_percent metadata self = (Return r, self') ->
  r_suggestions r <> [] /\
  (get (md_elements metadata) [] <> [] ->
   r_issues r = [] -> r_warnings r = [] ->
   r_suggestions r = ["Diagram looks good! No major issues detected."]).
Proof.
  intros Hrun.
  destruct (get (md_elements metadata) []) as [|e rest] eqn:Hels.
  - unfold analyze in Hrun. rewrite (@analyze_with_empty _ _ _ Hels) in Hrun.
    inversion Hrun; subst. split; [discriminate|congruence].
  - assert (Hne : get (md_elements metadata) [] <> []) by (rewrite Hels; discriminate).
    destruct (@analyze_nonempty_result _ _ _ _ _ Hne Hrun)
      as (after & suggestions & _ & _ & Hsug & ->).
    cbn [r_suggestions r_issues r_warnings]. split.
    + eapply generate_suggestions_nonempty; eauto.
    + intros _ Hi Hw. eapply generate_suggestions_clean; eauto.
Qed.

Lemma report_suggestions_witness :
  r_suggestions lone_arrow_report <> [] /\
  ([arrow None None None] <> [] ->
   r_issues lone_arrow_report = [] -> r_warnings lone_arrow_report = [] ->
   r_suggestions lone_arrow_report = ["Diagram looks good! No major issues detected."]).
Proof.
  refine (@report_suggestions (fun _ => "")
            {| md_elements := Some [arrow None None None] |}
            __init__ lone_arrow_report _ _).
  apply analyze_lone_arrow.
Defined.

(** X6: when a snapshot has a small text, an overlapping pair of shapes or
    a disconnected arrow, the report carries the matching remedy, and never
    the affirmative suggestion. *)
Theorem report_remedies format_percent metadata self r self' :
  analyze format_percent metadata self = (Return r, self') ->
  let elements := get (md_elements metadata) [] in
  (small_texts elements <> [] ->
   In "Increase font size to at least 12px for better readability" (r_suggestions r)) /\
  (overlaps (filter is_shape elements) <> [] ->
   In "Separate overlapping elements or increase spacing" (r_suggestions r)) /\
  (disconnected (filter (has_type "arrow") elements) <> [] ->
   In "Connect all arrows to shapes using bind-arrow command" (r_suggestions r)) /\
  (small_texts elements <> [] \/
   overlaps (filter is_shape elements) <> [] \/
   disconnected (filter (has_type "arrow") elements) <> [] ->
   ~ In "Diagram looks good! No major issues detected." (r_suggestions r)).
Proof.
  intros Hrun elements. subst elements.
  destruct (get (md_elements metadata) []) as [|e rest] eqn:Hels.
  - cbn. repeat split; try congruence. intros [H|[H|H]]; congruence.
  - assert (Hne : get (md_elements metadata) [] <> []) by (rewrite Hels; discriminate).
    pose proof (@report_issues_of_run _ _ _ _ _ Hne Hrun) as Hissues.
    destruct (@analyze_nonempty_result _ _ _ _ _ Hne Hrun)
      as (after & suggestions & _ & _ & Hsug & Hr).
    rewrite Hels in Hissues.
    assert (Hri : r_issues r = issues self') by (rewrite Hr; reflexivity).
    assert (Hrs : r_suggestions r = suggestions) by (rewrite Hr; reflexivity).
    rewrite Hrs. rewrite Hri in Hissues.
    destruct (generate_suggestions_triggers Hsug) as (Htext & Hover & Harrow & Hgood).
    rewrite Hissues in Htext, Hover, Harrow, Hgood.
    assert (Ht : small_texts (e :: rest) <> [] ->
                 any (fun issue => contains "Small text" issue)
                     (text_issues (e :: rest) ++ overlap_issues (e :: rest)
                      ++ arrow_issues (e :: rest)) = true).
    { intros H. now rewrite any_app, (@text_issues_trigger _ H). }
    assert (Ho : overlaps (filter is_shape (e :: rest)) <> [] ->
                 any (fun issue => contains "Overlapping" issue)
                     (text_issues (e :: rest) ++ overlap_issues (e :: rest)
                      ++ arrow_issues (e :: rest)) = true).
    { intros H. rewrite !any_app, (@overlap_issues_trigger _ H).
      now rewrite orb_true_r. }
    assert (Ha : disconnected (filter (has_type "arrow") (e :: rest)) <> [] ->
                 any (fun issue => contains "Disconnected arrows" issue)
                     (text_issues (e :: rest) ++ overlap_issues (e :: rest)
                      ++ arrow_issues (e :: rest)) = true).
    { intros H. rewrite !any_app, (@arrow_issues_trigger _ H).
      now rewrite !orb_true_r. }
    repeat split; auto.
    intros Hany Hin. destruct (Hgood Hin) as (Hg1 & Hg2 & Hg3).
    destruct Hany as [H|[H|H]].
    + rewrite (Ht H) in Hg1. discriminate.
    + rewrite (Ho H) in Hg2. discriminate.
    + rewrite (Ha H) in Hg3. discriminate.
Qed.

Lemma report_remedies_witness :
  (small_texts [arrow None None None] <> [] ->
   In "Increase font size to at least 12px for better readability"
      (r_suggestions lone_arrow_report)) /\
  (overlaps (filter is_shape [arrow None None None]) <> [] ->
   In "Separate overlapping elements or increase spacing"
      (r_suggestions lone_arrow_report)) /\
  (disconnected (filter (has_type "arrow") [arrow None None None]) <> [] ->
   In "Connect all arrows to shapes using bind-arrow command"
      (r_suggestions lone_arrow_report)) /\
  (small_texts [arrow None None None] <> [] \/
   overlaps (filter is_shape [arrow None None None]) <> [] \/
   disconnected (filter (has_type "arrow") [arrow None None None]) <> [] ->
   ~ In "Diagram looks good! No major issues detected."
        (r_suggestions lone_arrow_report)).
Proof.
  refine (@report_remedies (fun _ => "")
            {| md_elements := Some [arrow None None None] |}
            __init__ lone_arrow_report _ _).
  apply analyze_lone_arrow.
Defined.

(** ** Fewer than two shapes, and shapes without position *)

Lemma returns_text_readability elements : returns (_check_text_readability elements).
Proof. unfold _check_text_readability. returns. Qed.

Lemma returns_overlaps elements : returns (_check_overlaps elements).
Proof. unfold _check_overlaps. returns. Qed.

Lemma returns_arrows elements : returns (_check_arrows elements).
Proof. unfold _check_arrows. returns. Qed.

Lemma returns_visual_hierarchy elements : returns (_check_visual_hierarchy elements).
Proof. unfold _check_visual_hierarchy. returns. Qed.

Lemma run_checks_returns_when format_percent elements :
  returns (_check_spacing_consistency format_percent elements) ->
  returns (_check_alignment elements) ->
  returns (run_checks (checks format_percent) elements).
Proof.
  intros Hspacing Halign. unfold checks. cbn [run_checks].
  apply returns_bind; [apply returns_text_readability|].
  apply returns_bind; [exact Hspacing|].
  apply returns_bind; [exact Halign|].
  apply returns_bind; [apply returns_overlaps|].
  apply returns_bind; [apply returns_arrows|].
  apply returns_bind; [apply returns_visual_hierarchy|].
  apply returns_ret.
Qed.

Lemma analyze_returns_when format_percent metadata self :
  returns (_check_spacing_consistency format_percent (get (md_elements metadata) [])) ->
  returns (_check_alignment (get (md_elements metadata) [])) ->
  exists r self', analyze format_percent metadata self = (Return r, self').
Proof.
  intros Hspacing Halign. unfold analyze, analyze_with.
  destruct (get (md_elements metadata) []) as [|e rest] eqn:Hels.
  - simpl. eauto.
  - cbn [nonempty negb].
    destruct (@run_checks_returns_when format_percent (e :: rest) Hspacing Halign
                {| issues := []; warnings := []; score := 100 |}) as [after Hrun].
    rewrite (@bind_return _ _ _ _ _ _ _ Hrun).
    unfold bind, _generate_suggestions. cbv zeta. eauto.
Qed.

Lemma few_shapes_alignment elements :
  (List.length (filter is_shape elements) < 2)%nat ->
  _check_alignment elements = ret tt.
Proof.
  intros Hfew. unfold _check_alignment.
  destruct (Nat.ltb_spec (List.length (filter is_shape elements)) 2);
    [reflexivity|lia].
Qed.

Lemma few_shapes_spacing format_percent elements :
  (List.length (filter is_shape elements) < 2)%nat ->
  _check_spacing_consistency format_percent elements = ret tt.
Proof.
  intros Hfew. unfold _check_spacing_consistency.
  destruct (Nat.ltb_spec (List.length (filter is_shape elements)) 2);
    [reflexivity|lia].
Qed.

Lemma few_shapes_hierarchy elements :
  (List.length (filter is_shape elements) < 2)%nat ->
  _check_visual_hierarchy elements = ret tt.
Proof.
  intros Hfew. unfold _check_visual_hierarchy.
  destruct (Nat.ltb_spec (List.length (filter is_shape elements)) 2);
    [reflexivity|lia].
Qed.

Lemma few_shapes_overlap_issues elements :
  (List.length (filter is_shape elements) < 2)%nat ->
  overlap_issues elements = [].
Proof.
  intros Hfew. unfold overlap_issues.
  destruct (filter is_shape elements) as [|s1 [|s2 rest]];
    [reflexivity|reflexivity|simpl in Hfew; lia].
Qed.

Lemma few_shapes_run_checks format_percent elements :
  (List.length (filter is_shape elements) < 2)%nat ->
  adds (run_checks (checks format_percent) elements)
       (text_issues elements ++ arrow_issues elements) 0.
Proof.
  intros Hfew. unfold checks. cbn [run_checks].
  rewrite (few_shapes_spacing format_percent _ Hfew),
    (@few_shapes_alignment _ Hfew), (@few_shapes_hierarchy _ Hfew).
  eapply adds_weaken.
  - apply adds_bind; [apply adds_text_readability|intros _].
    apply adds_bind; [apply adds_ret|intros _].
    apply adds_bind; [apply adds_ret|intros _].
    apply adds_bind; [apply adds_overlaps|intros _].
    apply adds_bind; [apply adds_arrows|intros _].
    apply adds_bind; [apply adds_ret|intros _].
    apply adds_ret.
  - rewrite (@few_shapes_overlap_issues _ Hfew). cbn [app]. now rewrite !app_nil_r.
  - cbn. lia.
Qed.

(** X7: on a non-empty snapshot with fewer than two shapes [analyze] always
    returns, with no warning; its issues are the small-text issue and the
    disconnected-arrow issue, and its score is at least 80. *)
Theorem analyze_few_shapes format_percent metadata self :
  get (md_elements metadata) [] <> [] ->
  (List.length (filter is_shape (get (md_elements metadata) [])) < 2)%nat ->
  exists r self',
    analyze format_percent metadata self = (Return r, self') /\
    r_warnings r = [] /\
    r_issues r = text_issues (get (md_elements metadata) [])
                 ++ arrow_issues (get (md_elements metadata) []) /\
    (80 <= r_score r)%Z.
Proof.
  intros Hne Hfew.
  destruct (@analyze_returns_when format_percent metadata self) as (r & self' & Hrun).
  { rewrite (few_shapes_spacing format_percent _ Hfew). apply returns_ret. }
  { rewrite (@few_shapes_alignment _ Hfew). apply returns_ret. }
  exists r, self'. split; [exact Hrun|].
  destruct (@analyze_nonempty_result _ _ _ _ _ Hne Hrun)
    as (after & suggestions & Hchecks & -> & _ & ->).
  destruct (@few_shapes_run_checks format_percent _ Hfew _ _ _ Hchecks)
    as (W & Hlen & ->).
  destruct W; [|simpl in Hlen; lia].
  cbn [r_warnings r_issues r_score issues warnings score __init__ app].
  split; [reflexivity|]. split; [reflexivity|].
  pose proof (text_issues_length (get (md_elements metadata) [])).
  pose proof (arrow_issues_length (get (md_elements metadata) [])).
  unfold len. rewrite length_app. cbn [List.length]. lia.
Qed.

Lemma analyze_few_shapes_witness :
  exists r self',
    analyze (fun _ => "") {| md_elements := Some [arrow None None None] |} __init__
    = (Return r, self') /\
    r_warnings r = [] /\
    r_issues r = text_issues [arrow None None None]
                 ++ arrow_issues [arrow None None None] /\
    (80 <= r_score r)%Z.
Proof.
  refine (@analyze_few_shapes (fun _ => "")
            {| md_elements := Some [arrow None None None] |} __init__ _ _).
  - simpl. discriminate.
  - simpl. lia.
Defined.




(** The spacing check raises nothing but [OverflowError]. *)
Lemma calculate_variance_exception values err :
  _calculate_variance values = Raise err -> err = OverflowError.
Proof.
  unfold _calculate_variance.
  destruct (List.length values <? 2)%nat; [discriminate|]. cbv zeta.
  destruct (sum values / INR (List.length values) =? 0); [discriminate|].
  set (f := fun x => float_pow (x - sum values / INR (List.length values)) 2).
  assert (Hf : forall l e, comprehension f l = Raise e -> e = OverflowError).
  { induction l as [|x t IH]; intros e; cbn [comprehension]; [discriminate|].
    unfold f at 1, float_pow.
    destruct (_ <? FLOAT_RANGE); [|congruence].
    destruct (comprehension f t) as [bs|e'] eqn:Ht; [discriminate|].
    intros H. inversion H; subst. now apply IH. }
  destruct (comprehension f values) as [bs|e] eqn:Hc; [discriminate|].
  intros H. inversion H; subst. now apply (Hf values).
Qed.




(** X9: the overlap test does not depend on the order of the two
    elements. *)
Theorem elements_overlap_symmetric :
  forall e1 e2, _elements_overlap e1 e2 = _elements_overlap e2 e1.
Proof.
  intros e1 e2. unfold _elements_overlap. cbv zeta.
  num_cases; reflexivity.
Qed.





(** ** More statistics *)

Lemma pairs_length A (l : list A) :
  (2 * List.length (pairs l) = List.length l * (List.length l - 1))%nat.
Proof.
  induction l as [|a t IH]; [reflexivity|].
  cbn [pairs List.length]. rewrite length_app, length_map. nia.
Qed.

Lemma count_fold_bounds (threshold : R) (l : list (R * R)) (c : Z) :
  (c <= fold_left
          (fun near_count '(v1, v2) =>
             if (Rabs (v1 - v2) <=? threshold)%num then (near_count + 1)%Z else near_count)
          l c <= c + Z.of_nat (List.length l))%Z.
Proof.
  revert c. induction l as [|[v1 v2] t IH]; intros c.
  - simpl. lia.
  - cbn [fold_left List.length].
    destruct (Rabs (v1 - v2) <=? threshold).
    + specialize (IH (c + 1)%Z). lia.
    + specialize (IH c). lia.
Qed.

Lemma count_fold_monotone (t1 t2 : R) (l : list (R * R)) (c1 c2 : Z) :
  t1 <= t2 -> (c1 <= c2)%Z ->
  (fold_left
     (fun near_count '(v1, v2) =>
        if (Rabs (v1 - v2) <=? t1)%num then (near_count + 1)%Z else near_count) l c1
   <= fold_left
        (fun near_count '(v1, v2) =>
           if (Rabs (v1 - v2) <=? t2)%num then (near_count + 1)%Z else near_count) l c2)%Z.
Proof.
  intros Ht. revert c1 c2. induction l as [|[v1 v2] t IH]; intros c1 c2 Hc.
  - exact Hc.
  - cbn [fold_left]. apply IH.
    destruct (Rabs (v1 - v2) <=? t1) eqn:H1, (Rabs (v1 - v2) <=? t2) eqn:H2;
      num_bool; try lia.
    exfalso. lra.
Qed.

(** X12: [_count_near_values] counts between 0 and n(n-1)/2 pairs on n
    values, and a larger threshold never counts fewer pairs. *)
Theorem count_near_values_bounds :
  (forall values threshold,
      (0 <= _count_near_values values threshold)%Z /\
      (2 * _count_near_values values threshold
       <= len values * (len values - 1))%Z) /\
  (forall values t1 t2,
      t1 <= t2 ->
      (_count_near_values values t1 <= _count_near_values values t2)%Z).
Proof.
  split.
  - intros values threshold. unfold _count_near_values.
    destruct (Nat.ltb_spec (List.length values) 2) as [Hshort|Hlong].
    + unfold len. split; nia.
    + pose proof (count_fold_bounds threshold (pairs values) 0) as Hb.
      pose proof (pairs_length values) as Hp.
      unfold len. split; nia.
  - intros values t1 t2 Ht. unfold _count_near_values.
    destruct (List.length values <? 2)%nat; [lia|].
    apply count_fold_monotone; [exact Ht|lia].
Qed.

Lemma count_near_values_bounds_witness :
  (_count_near_values [0; 3; 10]%R 2 <= _count_near_values [0; 3; 10]%R 5)%Z.
Proof.
  apply (proj2 count_near_values_bounds [0; 3; 10]%R 2 5). lra.
Defined.

(** ** The coefficient of variation of gaps *)


(** X13: on strictly positive values of magnitude up to [10^150],
    [_calculate_variance] raises nothing, and what it returns is never
    negative. *)
Theorem calculate_variance_sign values :
  Forall (fun v => 0 < v <= 10 ^ 150) values ->
  exists cv, _calculate_variance values = Return cv /\ 0 <= cv.
Proof.
  intros Hall.
  destruct (Nat.lt_ge_cases (List.length values) 2) as [Hshort|Hlong].
  - exists 0. split; [now apply calculate_variance_short|lra].
  - pose proof (INR_length_positive values Hlong) as Hn.
    assert (Hsum : 0 < sum values).
    { apply sum_positive; [destruct values; [simpl in Hlong; lia|discriminate]|].
      eapply Forall_impl; [|exact Hall]. cbv beta. tauto. }
    assert (Hmean : 0 < mean values) by (apply Rdiv_lt_0_compat; assumption).
    exists (coefficient_of_variation values). split.
    + apply calculate_variance_general; [exact Hlong|lra|].
      eapply Forall_impl; [|exact Hall]. cbv beta. intros v [Hpos Hle].
      rewrite Rabs_pos_eq; lra.
    + unfold coefficient_of_variation.
      apply Rmult_le_pos; [apply sqrt_pos|].
      apply Rlt_le, Rinv_0_lt_compat, Hmean.
Qed.

Lemma calculate_variance_sign_witness :
  exists cv, _calculate_variance [10; 20] = Return cv /\ 0 <= cv.
Proof.
  apply (@calculate_variance_sign [10; 20]).
  pose proof two_hundred_small.
  repeat (apply Forall_cons; [lra|]). apply Forall_nil.
Defined.


(** ** The pairs of the double loops *)

Lemma pairs_In_split A (l : list A) a b :
  In (a, b) (pairs l) <-> exists l1 l2 l3, l = l1 ++ a :: l2 ++ b :: l3.
Proof.
  split.
  - induction l as [|x t IH]; [intros []|].
    cbn [pairs]. rewrite in_app_iff, in_map_iff.
    intros [(b' & Heq & Hin)|Hin].
    + inversion Heq; subst. destruct (in_split _ _ Hin) as (l2 & l3 & ->).
      now exists [], l2, l3.
    + destruct (IH Hin) as (l1 & l2 & l3 & ->). now exists (x :: l1), l2, l3.
  - intros (l1 & l2 & l3 & ->). induction l1 as [|x l1 IH].
    + cbn [app pairs]. apply in_or_app. left. apply in_map. apply in_elt.
    + cbn [app pairs]. apply in_or_app. now right.
Qed.

(** X15: the double loop of the spacing and overlap checks visits n(n-1)/2
    pairs on n shapes, and it visits the pair (a, b) exactly when a stands
    before b in the list. *)
Theorem pairs_spec :
  forall (l : list element),
    (2 * List.length (pairs l) = List.length l * (List.length l - 1))%nat /\
    (forall a b,
        In (a, b) (pairs l) <-> exists l1 l2 l3, l = l1 ++ a :: l2 ++ b :: l3).
Proof.
  intros l. split; [apply pairs_length|]. intros a b. apply pairs_In_split.
Qed.

(** ** When the issue checks stay silent *)

Lemma append_issue_changes s self : append_issue s self <> (Return tt, self).
Proof.
  unfold append_issue. intros H. inversion H as [Hself].
  apply (f_equal issues) in Hself. cbn [issues] in Hself.
  apply (f_equal (@List.length string)) in Hself.
  rewrite length_app in Hself. simpl in Hself. lia.
Qed.

Lemma append_warning_changes s self : append_warning s self <> (Return tt, self).
Proof.
  unfold append_warning. intros H. inversion H as [Hself].
  apply (f_equal warnings) in Hself. cbn [warnings] in Hself.
  apply (f_equal (@List.length string)) in Hself.
  rewrite length_app in Hself. simpl in Hself. lia.
Qed.

Lemma filter_nil_iff A (p : A -> bool) l :
  filter p l = [] <-> forall a, In a l -> p a = false.
Proof.
  split.
  - intros Hnil a Hin. destruct (p a) eqn:Hp; [|reflexivity].
    assert (Hf : In a (filter p l)) by (apply filter_In; tauto).
    rewrite Hnil in Hf. destruct Hf.
  - intros Hall. induction l as [|a t IH]; [reflexivity|].
    simpl. rewrite (Hall a (or_introl eq_refl)). apply IH.
    intros b Hb. apply Hall. now right.
Qed.

Lemma text_readability_silent elements self :
  _check_text_readability elements self = (Return tt, self) <->
  small_texts elements = [].
Proof.
  unfold _check_text_readability.
  destruct (small_texts elements) as [|e rest]; cbn [map nonempty].
  - split; reflexivity.
  - split; [|discriminate]. intros H. now apply append_issue_changes in H.
Qed.

Lemma overlaps_silent elements self :
  _check_overlaps elements self = (Return tt, self) <->
  overlaps (filter is_shape elements) = [].
Proof.
  unfold _check_overlaps. cbv zeta.
  destruct (overlaps (filter is_shape elements)) as [|e rest]; cbn [nonempty].
  - split; reflexivity.
  - split; [|discriminate]. intros H. now apply append_issue_changes in H.
Qed.

Lemma arrows_silent elements self :
  _check_arrows elements self = (Return tt, self) <->
  disconnected (filter (has_type "arrow") elements) = [].
Proof.
  unfold _check_arrows. cbv zeta.
  destruct (filter (has_type "arrow") elements) as [|a arrows].
  - split; reflexivity.
  - cbn [nonempty negb].
    destruct (disconnected (a :: arrows)) as [|e rest]; cbn [nonempty].
    + split; reflexivity.
    + split; [|discriminate]. intros H. now apply append_issue_changes in H.
Qed.

(** X16: the text check appends nothing exactly when every text element has
    a font size of at least 12 (20 when absent); the overlap check, exactly
    when no shape overlaps a shape that stands after it in the list; the
    arrow check, exactly when every arrow has both bindings. *)
Theorem issue_checks_silent elements self :
  (_check_text_readability elements self = (Return tt, self) <->
   forall e, In e elements -> e_type e = Some "text" -> 12 <= font_size e) /\
  (_check_overlaps elements self = (Return tt, self) <->
   forall l1 a l2 b l3,
     filter is_shape elements = l1 ++ a :: l2 ++ b :: l3 ->
     _elements_overlap a b = false) /\
  (_check_arrows elements self = (Return tt, self) <->
   forall e, In e elements -> e_type e = Some "arrow" ->
             e_startBinding e <> None /\ e_endBinding e <> None).
Proof.
  split; [|split].
  - rewrite text_readability_silent. split.
    + intros Hnil e Hin Htext.
      destruct (Rle_dec 12 (font_size e)) as [|Hsmall]; [assumption|].
      assert (Hf : In e (small_texts elements)) by (apply small_texts_In; repeat split; auto; lra).
      rewrite Hnil in Hf. destruct Hf.
    + intros Hall. destruct (small_texts elements) as [|e rest] eqn:Hsmall;
        [reflexivity|].
      assert (Hf : In e (small_texts elements)) by (rewrite Hsmall; now left).
      apply small_texts_In in Hf. destruct Hf as (Hin & Htext & Hlt).
      specialize (Hall e Hin Htext). lra.
  - rewrite overlaps_silent. unfold overlaps. rewrite filter_nil_iff. split.
    + intros Hall l1 a l2 b l3 Hsplit.
      apply (Hall (a, b)). apply pairs_In_split. eauto.
    + intros Hall [a b] Hin. apply pairs_In_split in Hin.
      destruct Hin as (l1 & l2 & l3 & Hsplit). eauto.
  - rewrite arrows_silent. unfold disconnected. rewrite filter_nil_iff. split.
    + intros Hall e Hin Harrow.
      assert (Hf : In e (filter (has_type "arrow") elements))
        by (apply filter_In; split; [assumption|now apply has_type_true]).
      specialize (Hall e Hf). apply orb_false_iff in Hall.
      destruct Hall as [Hs He].
      destruct (e_startBinding e), (e_endBinding e); try discriminate.
      split; discriminate.
    + intros Hall e Hin. apply filter_In in Hin. destruct Hin as [Hin Harrow].
      apply has_type_true in Harrow.
      destruct (Hall e Hin Harrow) as [Hs He].
      destruct (e_startBinding e), (e_endBinding e); try congruence. reflexivity.
Qed.

(** ** When the hierarchy warning is given *)






(** ** Shapes that share a coordinate *)







(** ** Score and grade in terms of the findings *)

Lemma calculate_grade_A s : _calculate_grade s = "A" <-> (90 <= s)%Z.
Proof.
  unfold _calculate_grade.
  destruct (Z.geb_spec s 90); [split; [lia|reflexivity]|].
  destruct (s >=? 80)%Z; [split; [discriminate|lia]|].
  destruct (s >=? 70)%Z; [split; [discriminate|lia]|].
  destruct (s >=? 60)%Z; split; try discriminate; lia.
Qed.

Lemma calculate_grade_F s : _calculate_grade s = "F" <-> (s < 60)%Z.
Proof.
  unfold _calculate_grade.
  destruct (Z.geb_spec s 90); [split; [discriminate|lia]|].
  destruct (Z.geb_spec s 80); [split; [discriminate|lia]|].
  destruct (Z.geb_spec s 70); [split; [discriminate|lia]|].
  destruct (Z.geb_spec s 60); [split; [discriminate|lia]|].
  split; [lia|reflexivity].
Qed.

(** X19: on a non-empty snapshot the score is 100 exactly when the report
    has no issue and no warning; the grade is A exactly when the penalty
    (10 per issue, 5 per warning) is at most 10; and the grade is F exactly
    when all three issues and at least three warnings were reported. *)
Theorem report_grade_findings format_percent metadata self r self' :
  get (md_elements metadata) [] <> [] ->
  analyze format_percent metadata self = (Return r, self') ->
  (r_score r = 100%Z <-> r_issues r = [] /\ r_warnings r = []) /\
  (r_grade r = "A" <-> (len (r_issues r) * 10 + len (r_warnings r) * 5 <= 10)%Z) /\
  (r_grade r = "F" <->
   List.length (r_issues r) = 3%nat /\ (3 <= List.length (r_warnings r))%nat).
Proof.
  intros Hne Hrun.
  destruct (@analyze_nonempty_effects _ _ _ _ _ Hne Hrun)
    as (Hissues & Hwarnings & Hscore).
  assert (Hthree : (List.length (r_issues r) <= 3)%nat).
  { rewrite Hissues, !length_app.
    pose proof (text_issues_length (get (md_elements metadata) [])).
    pose proof (overlap_issues_length (get (md_elements metadata) [])).
    pose proof (arrow_issues_length (get (md_elements metadata) [])).
    lia. }
  assert (Hgrade : r_grade r = _calculate_grade (r_score r)).
  { destruct (@analyze_nonempty_result _ _ _ _ _ Hne Hrun)
      as (after & suggestions & _ & _ & _ & ->). reflexivity. }
  rewrite Hgrade, calculate_grade_A, calculate_grade_F, Hscore.
  unfold len. split; [|split].
  - split.
    + intros H100.
      destruct (r_issues r), (r_warnings r); cbn [List.length] in *; try lia.
      split; reflexivity.
    + intros [-> ->]. reflexivity.
  - lia.
  - lia.
Qed.

Lemma report_grade_findings_witness :
  (r_score lone_arrow_report = 100%Z <->
   r_issues lone_arrow_report = [] /\ r_warnings lone_arrow_report = []) /\
  (r_grade lone_arrow_report = "A" <->
   (len (r_issues lone_arrow_report) * 10 + len (r_warnings lone_arrow_report) * 5
    <= 10)%Z) /\
  (r_grade lone_arrow_report = "F" <->
   List.length (r_issues lone_arrow_report) = 3%nat /\
   (3 <= List.length (r_warnings lone_arrow_report))%nat).
Proof.
  refine (@report_grade_findings (fun _ => "")
            {| md_elements := Some [arrow None None None] |}
            __init__ lone_arrow_report _ _ _).
  - simpl. discriminate.
  - apply analyze_lone_arrow.
Defined.

(** ** The elements the checks look at *)

Lemma run_checks_same_kinds format_percent elements1 elements2 :
  filter (has_type "text") elements1 = filter (has_type "text") elements2 ->
  filter is_shape elements1 = filter is_shape elements2 ->
  filter (has_type "arrow") elements1 = filter (has_type "arrow") elements2 ->
  run_checks (checks format_percent) elements1
  = run_checks (checks format_percent) elements2.
Proof.
  intros Htext Hshape Harrow. unfold checks. cbn [run_checks].
  unfold _check_text_readability, small_texts, _check_spacing_consistency,
    _check_alignment, _check_overlaps, _check_arrows, _check_visual_hierarchy.
  now rewrite Htext, Hshape, Harrow.
Qed.

(** X20: the checks see a snapshot only through its text elements, its
    shapes and its arrows: two non-empty snapshots with the same three
    sublists get the same score, grade, issues, warnings, suggestions and
    quality level, or raise the same exception. *)
Theorem analyze_same_kinds format_percent elements1 elements2 self :
  elements1 <> [] -> elements2 <> [] ->
  filter (has_type "text") elements1 = filter (has_type "text") elements2 ->
  filter is_shape elements1 = filter is_shape elements2 ->
  filter (has_type "arrow") elements1 = filter (has_type "arrow") elements2 ->
  match fst (analyze format_percent {| md_elements := Some elements1 |} self),
        fst (analyze format_percent {| md_elements := Some elements2 |} self) with
  | Return r1, Return r2 =>
      r_score r1 = r_score r2 /\ r_grade r1 = r_grade r2 /\
      r_issues r1 = r_issues r2 /\ r_warnings r1 = r_warnings r2 /\
      r_suggestions r1 = r_suggestions r2 /\
      r_quality_level r1 = r_quality_level r2
  | Raise e1, Raise e2 => e1 = e2
  | _, _ => False
  end.
Proof.
  intros Hne1 Hne2 Htext Hshape Harrow.
  unfold analyze, analyze_with. cbn [md_elements get].
  destruct elements1 as [|a1 t1]; [congruence|].
  destruct elements2 as [|a2 t2]; [congruence|].
  cbn [nonempty negb]. unfold bind.
  rewrite (@run_checks_same_kinds format_percent _ _ Htext Hshape Harrow).
  destruct (run_checks (checks format_percent) (a2 :: t2) _) as [[[]|e] after];
    cbn; [repeat split|reflexivity].
Qed.

Lemma analyze_same_kinds_witness :
  match fst (analyze (fun _ => "")
               {| md_elements := Some [arrow None None None] |} __init__),
        fst (analyze (fun _ => "")
               {| md_elements :=
                    Some [ {| e_id := None; e_type := Some "line";
                              e_x := None; e_y := None;
                              e_width := None; e_height := None;
                              e_fontSize := None;
                              e_startBinding := None; e_endBinding := None |};
                           arrow None None None ] |} __init__) with
  | Return r1, Return r2 =>
      r_score r1 = r_score r2 /\ r_grade r1 = r_grade r2 /\
      r_issues r1 = r_issues r2 /\ r_warnings r1 = r_warnings r2 /\
      r_suggestions r1 = r_suggestions r2 /\
      r_quality_level r1 = r_quality_level r2
  | Raise e1, Raise e2 => e1 = e2
  | _, _ => False
  end.
Proof.
  apply (@analyze_same_kinds (fun _ => "")); try discriminate; reflexivity.
Defined.

(** ** Instances of the last properties *)

Ltac decide_comparisons :=
  repeat match goal with
  | |- context [Num.ltb ?a ?b] =>
      first [ replace (Num.ltb a b) with true by (symmetry; num_decide)
            | replace (Num.ltb a b) with false by (symmetry; num_decide) ]
  end.





(** ** Overflow in the spacing check *)

Lemma spacing_consistency_overflow format_percent elements self err :
  _calculate_variance (h_gaps (filter is_shape elements)) = Raise err \/
  _calculate_variance (v_gaps (filter is_shape elements)) = Raise err ->
  exists self',
    _check_spacing_consistency format_percent elements self
    = (Raise OverflowError, self').
Proof.
  intros Hraise. unfold _check_spacing_consistency. cbv zeta.
  destruct (filter is_shape elements) as [|s1 [|s2 shapes]] eqn:Hshapes;
    [destruct Hraise; discriminate|destruct Hraise; discriminate|].
  cbn [List.length Nat.ltb Nat.leb]. unfold bind, lift.
  set (hs := h_gaps (s1 :: s2 :: shapes)) in *.
  set (vs := v_gaps (s1 :: s2 :: shapes)) in *.
  assert (Hh : nonempty hs = false -> exists v, _calculate_variance hs = Return v).
  { destruct hs; [eexists; reflexivity|discriminate]. }
  assert (Hv : nonempty vs = false -> exists v, _calculate_variance vs = Return v).
  { destruct vs; [eexists; reflexivity|discriminate]. }
  destruct (_calculate_variance hs) as [vh|eh] eqn:Hhs.
  - destruct Hraise as [Hraise|Hraise]; [discriminate|].
    pose proof (calculate_variance_exception _ Hraise) as ->.
    destruct (nonempty vs); [|destruct (Hv eq_refl); congruence].
    rewrite Hraise.
    destruct (nonempty hs); [destruct (vh >? MAX_SPACING_VARIANCE)|];
      eexists; reflexivity.
  - pose proof (calculate_variance_exception _ Hhs) as ->.
    destruct (nonempty hs); [|destruct (Hh eq_refl); congruence].
    eexists; reflexivity.
Qed.

(** X21: when [_calculate_variance] raises on the horizontal gaps of the
    shapes, or on their vertical gaps, [analyze] raises [OverflowError]. *)
Theorem analyze_raises_overflow format_percent metadata self err :
  _calculate_variance
    (h_gaps (filter is_shape (get (md_elements metadata) []))) = Raise err \/
  _calculate_variance
    (v_gaps (filter is_shape (get (md_elements metadata) []))) = Raise err ->
  fst (analyze format_percent metadata self) = Raise OverflowError.
Proof.
  intros Hraise. unfold analyze, analyze_with.
  destruct (get (md_elements metadata) []) as [|e rest] eqn:Hels;
    [destruct Hraise; discriminate|].
  cbn [nonempty negb]. unfold checks. cbn [run_checks].
  destruct (@returns_text_readability (e :: rest)
              {| issues := []; warnings := []; score := 100 |}) as [self1 H1].
  destruct (@spacing_consistency_overflow format_percent (e :: rest) self1 err Hraise)
    as [self2 H2].
  erewrite bind_raise; [reflexivity|].
  rewrite (@bind_return _ _ _ _ _ _ _ H1).
  apply bind_raise. exact H2.
Qed.

Lemma one_small : 1 < 10 ^ 160.
Proof. rewrite pow_IZR. apply IZR_lt. vm_compute. reflexivity. Qed.

Lemma far_row_gaps :
  h_gaps (filter is_shape far_row)
  = [10 ^ 160 - (0 + 1); 4 * 10 ^ 160 - (0 + 1); 4 * 10 ^ 160 - (10 ^ 160 + 1)].
Proof.
  pose proof one_small as Hone.
  change (filter is_shape far_row) with far_row.
  unfold h_gaps, gaps, far_row. cbn [pairs map app flat_map].
  rewrite !calculate_gap_unfold.
  unfold geom_x, geom_y, geom_w, geom_h, rectangle, shape, get.
  cbn [e_x e_y e_width e_height].
  decide_comparisons.
  reflexivity.
Qed.

Lemma far_row_variance :
  _calculate_variance (h_gaps (filter is_shape far_row)) = Raise OverflowError.
Proof.
  pose proof one_small as Hone. pose proof float_range_excludes as Hout.
  rewrite far_row_gaps. unfold _calculate_variance, sum.
  cbn [List.length Nat.ltb Nat.leb fold_left INR].
  set (a := 10 ^ 160) in *.
  set (m := (0 + (a - (0 + 1)) + (4 * a - (0 + 1)) + (4 * a - (a + 1))) / (1 + 1 + 1)).
  assert (Hm : m = (8 * a - 3) / 3) by (unfold m; field).
  replace (m =? 0) with false by (symmetry; apply num_eqb_neq; lra).
  cbn [comprehension]. rewrite float_pow_raises; [reflexivity|].
  apply Rle_trans with (1 := Hout). rewrite Hm. nra.
Qed.

Lemma analyze_raises_overflow_witness :
  fst (analyze (fun _ => "") {| md_elements := Some far_row |} __init__)
  = Raise OverflowError.
Proof.
  apply (@analyze_raises_overflow (fun _ => "") {| md_elements := Some far_row |}
           __init__ OverflowError).
  left. exact far_row_variance.
Defined.

End VisualAnalyzer.
